(** * edk2_setup: the submodule synchronizer of edk2toolext

    A shallow embedding of [edk2toolext/invocables/edk2_setup.py]
    ([RequiredSubmodule], [SetupSettingsManager], [Edk2PlatformSetup]) and
    the properties of [Edk2PlatformSetup.Go] and
    [Edk2PlatformSetup.RetrieveCommandLineOptions].

    The Python code is a sequence of subprocess calls, log calls and
    [try]/[except RuntimeError] blocks.  It is embedded in a small monad
    that threads the state of the outside world (file system, repositories),
    collects the observable events of a run in order (commands with the
    answer they got, log records, version reports) and ends either with a
    returned value or with a raised exception. *)

From Stdlib Require Import String Ascii List ZArith Bool Lia.
Import ListNotations.

Local Open Scope string_scope.
Local Open Scope Z_scope.

(** ** Python strings *)

Module PyStr.

  (** [str.isspace] on the code points below 256. *)
Definition isspace (c : ascii) : bool :=
    let n := nat_of_ascii c in
    ((9 <=? n) && (n <=? 13))%nat || ((28 <=? n) && (n <=? 32))%nat
    || (n =? 133)%nat || (n =? 160)%nat.

Fixpoint lstrip (s : string) : string :=
    match s with
    | EmptyString => EmptyString
    | String c r => if isspace c then lstrip r else s
    end.

Fixpoint rstrip (s : string) : string :=
    match s with
    | EmptyString => EmptyString
    | String c r =>
        match rstrip r with
        | EmptyString => if isspace c then EmptyString else String c EmptyString
        | r' => String c r'
        end
    end.

  (** [s.strip()] *)
Definition strip (s : string) : string := rstrip (lstrip s).

  (** [s.split(sep)] for a separator of one character: empty fields are
      kept and the result is never empty. *)
Fixpoint split (sep : ascii) (s : string) : list string :=
    match s with
    | EmptyString => [EmptyString]
    | String c r =>
        if Ascii.eqb c sep then EmptyString :: split sep r
        else match split sep r with
             | f :: fs => String c f :: fs
             | [] => [String c EmptyString]
             end
    end.

  (** [sep.join(l)] *)
Definition join (sep : string) (l : list string) : string :=
    String.concat sep l.

  (** [s.split()] without a separator: the maximal runs of characters that
      are not white space.  The source never calls it; it is the reading of
      "whitespace-separated word" that the description of the version check
      uses, kept here to be compared with [split " "]. *)
Fixpoint words_aux (cur : option string) (s : string) : list string :=
    match s with
    | EmptyString => match cur with Some w => [w] | None => [] end
    | String c r =>
        if isspace c
        then match cur with Some w => w :: words_aux None r | None => words_aux None r end
        else words_aux (Some (match cur with Some w => w ++ String c "" | None => String c "" end)) r
    end.

Definition split_whitespace (s : string) : list string := words_aux None s.

Definition is_digit (c : ascii) : bool :=
    let n := nat_of_ascii c in ((48 <=? n) && (n <=? 57))%nat.

Fixpoint digits_value (acc : N) (s : string) : option N :=
    match s with
    | EmptyString => Some acc
    | String c r =>
        if is_digit c
        then digits_value (acc * 10 + (N_of_ascii c - 48))%N r
        else None
    end.

  (** The number written by a non-empty string of decimal digits. *)
Definition parse_decimal (s : string) : option N :=
    match s with
    | EmptyString => None
    | _ => digits_value 0%N s
    end.

Definition nl : string := String (ascii_of_nat 10) EmptyString.
Definition tab : string := String (ascii_of_nat 9) EmptyString.

End PyStr.

(** ** Exceptions, outcomes and events *)

(** The exception classes the code distinguishes: [except RuntimeError]
    catches [RuntimeError] and lets every other class through. *)
Inductive exn : Type :=
| RuntimeError (msg : string)
| IndexError (msg : string)
| OtherException (cls msg : string).

Inductive outcome (A : Type) : Type :=
| Returned (a : A)
| Raised (e : exn).
Arguments Returned {A} a.
Arguments Raised {A} e.

(** What the process layer answers to one command: the process ran and left
    an exit code and its captured output, or starting or reading it raised an
    exception of its own (an [OSError], a decoding error, ...). *)
Inductive response : Type :=
| Exited (rc : Z) (out : string)
| Crashed (e : exn).

(** The call sites of [RunCmd] in [Go], in source order (lines 113, 130, 135,
    145, 147, 167, 191 and 213).  The label is carried by the event only; the
    process layer never sees it. *)
Inductive site : Type :=
| VersionQuery | RootReset | RootClean | SubReset | SubClean | Sync | Diff | Fetch.

Inductive level : Type := PROGRESS | ERROR | INFO | WARNING.

(** Modelled from the spec: [version_aggregator.VersionTypes] is declared in
    [edk2toolext/environment/version_aggregator.py]; the description gives
    the category as an enumeration with the member [TOOL] among others. *)
Inductive VersionTypes : Type := TOOL | OtherVersionType (name : string).

Inductive event : Type :=
| Cmd (at_site : site) (cmd params : string) (workingdir : option string) (resp : response)
| Log (lvl : level) (msg : string)
| Report (name version : string) (ty : VersionTypes).

Definition site_eqb (a b : site) : bool :=
  match a, b with
  | VersionQuery, VersionQuery | RootReset, RootReset | RootClean, RootClean
  | SubReset, SubReset | SubClean, SubClean | Sync, Sync | Diff, Diff
  | Fetch, Fetch => true
  | _, _ => false
  end.

(** ** The data model *)

(** [class RequiredSubmodule] *)
Record RequiredSubmodule : Type := {
  path : string;
  recursive : bool
}.

(** The fields of the invocable that [Go] reads: [self.force_it] and
    [self.omnicache_path] (set by [RetrieveCommandLineOptions]),
    [self.PlatformSettings.GetRequiredSubmodules()] and
    [self.GetWorkspaceRoot()]. *)
Record config : Type := {
  force_it : bool;
  omnicache_path : option string;
  required_submodules : list RequiredSubmodule;
  workspace_path : string
}.

(** [SetupSettingsManager.GetRequiredSubmodules], the default. *)
Definition GetRequiredSubmodules_default : list RequiredSubmodule := [].

(** [Edk2PlatformSetup.GetLoggingFileName] *)
Definition GetLoggingFileName (loggerType : string) : string := "SETUPLOG".

(** [Edk2PlatformSetup.GetVerifyCheckRequired] *)
Definition GetVerifyCheckRequired : bool := false.

(** ** The collaborators outside the module

    [W] is the state of the outside world.  [spawn] is the process layer
    under [RunCmd]: it runs one command line in a working directory, changes
    the world and answers.  [path_exists], [os_path_join] and
    [os_path_normpath] are [os.path.exists], [os.path.join] and
    [os.path.normpath].  [version_compare] is
    [edk2toollib.utility_functions.version_compare]; the statements below hold
    for every implementation of it, and the one about the version check asks
    for the contract the description gives it.  [nonzero_message] is the text
    [RunCmd] puts in the exception for a failed command. *)
Record Host (W : Type) : Type := {
  spawn : W -> string -> string -> option string -> response * W;
  nonzero_message : string -> string -> Z -> string;
  path_exists : W -> string -> bool;
  os_path_join : string -> string -> string;
  os_path_normpath : string -> string;
  version_compare : string -> string -> outcome Z
}.
Arguments spawn {W} _ _ _ _ _.
Arguments nonzero_message {W} _ _ _ _.
Arguments path_exists {W} _ _ _.
Arguments os_path_join {W} _ _ _.
Arguments os_path_normpath {W} _ _.
Arguments version_compare {W} _ _ _.

(** ** The monad of a run *)

Section Exec.

Context {W : Type}.

  (** A computation starts in a world and yields its outcome, the world it
      leaves and the events it produced, oldest first. *)
Definition M (A : Type) : Type := W -> outcome A * W * list event.

Definition ret {A} (a : A) : M A := fun w => (Returned a, w, []).

Definition raise {A} (e : exn) : M A := fun w => (Raised e, w, []).

Definition bind {A B} (m : M A) (f : A -> M B) : M B :=
    fun w =>
      match m w with
      | (Returned a, w1, t1) =>
          match f a w1 with (o, w2, t2) => (o, w2, (t1 ++ t2)%list) end
      | (Raised e, w1, t1) => (Raised e, w1, t1)
      end.

Definition emit (e : event) : M unit := fun w => (Returned tt, w, [e]).

  (** [try: m except RuntimeError as e: handler(str(e))] *)
Definition try_except_RuntimeError {A} (m : M A) (handler : string -> M A) : M A :=
    fun w =>
      match m w with
      | (Raised (RuntimeError msg), w1, t1) =>
          match handler msg w1 with (o, w2, t2) => (o, w2, (t1 ++ t2)%list) end
      | r => r
      end.

  (** A value or an exception of a pure call. *)
Definition lift {A} (o : outcome A) : M A := fun w => (o, w, []).

  (** [for x in l: body(x)] *)
Fixpoint for_each {A} (l : list A) (body : A -> M unit) : M unit :=
    match l with
    | [] => ret tt
    | x :: r => bind (body x) (fun _ => for_each r body)
    end.

End Exec.

Arguments M : clear implicits.

Notation "x <- m ;; k" := (bind m (fun x => k))
  (at level 61, m at next level, right associativity).
Notation "m ;;; k" := (bind m (fun _ => k))
  (at level 61, right associativity).

(** ** The invocable *)

Section Edk2PlatformSetup.

Context {W : Type} (h : Host W).

  (** Modelled from the spec: [RunCmd] belongs to
      [edk2toollib.utility_functions], outside this repository's sources.  Its
      contract is the one the description and the handlers of [Go] rely on:
      the command is run to completion, its exit code is returned and its
      standard output is captured; with [raise_exception_on_nonzero] set, a
      non-zero exit code raises a [RuntimeError].  An exception of the process
      layer itself passes through.  The captured output is returned with the
      exit code; it stands for the contents of the [StringIO] the caller hands
      in as [outstream]. *)
Definition RunCmd (at_site : site) (cmd params : string)
      (workingdir : option string) (raise_exception_on_nonzero : bool)
    : M W (Z * string) :=
    fun w =>
      match spawn h w cmd params workingdir with
      | (Exited rc out, w') =>
          let ev := Cmd at_site cmd params workingdir (Exited rc out) in
          if raise_exception_on_nonzero && negb (rc =? 0)
          then (Raised (RuntimeError (nonzero_message h cmd params rc)), w', [ev])
          else (Returned (rc, out), w', [ev])
      | (Crashed e, w') =>
          (Raised e, w', [Cmd at_site cmd params workingdir (Crashed e)])
      end.

  (** [os.path.exists(p)] *)
Definition os_path_exists (p : string) : M W bool :=
    fun w => (Returned (path_exists h w p), w, []).

  (** [edk2_logging.log_progress], [logging.error], [logging.info] and
      [logging.warning] *)
Definition log_progress (msg : string) : M W unit := emit (Log PROGRESS msg).
Definition logging_error (msg : string) : M W unit := emit (Log ERROR msg).
Definition logging_info (msg : string) : M W unit := emit (Log INFO msg).
Definition logging_warning (msg : string) : M W unit := emit (Log WARNING msg).

  (** Modelled from the spec: [ReportVersion] of the version registry
      ([edk2toolext/environment/version_aggregator.py]) takes a name, a
      version and a category, and nothing it returns is used. *)
Definition ReportVersion (name version : string) (ty : VersionTypes) : M W unit :=
    emit (Report name version ty).

  (** [l[i]] *)
Definition index (l : list string) (i : nat) : M W string :=
    match nth_error l i with
    | Some x => ret x
    | None => raise (IndexError "list index out of range")
    end.

  (** [Edk2PlatformSetup.RetrieveCommandLineOptions]: [args.force] and
      [args.omnicache_path] are the two arguments; the rest of the
      configuration comes from the framework and is passed through. *)
Definition RetrieveCommandLineOptions (args_force : bool)
      (args_omnicache_path : option string)
      (subs : list RequiredSubmodule) (root : string) : M W config :=
    omni <- match args_omnicache_path with
            | Some p =>
                ex <- os_path_exists p ;;
                if negb ex
                then logging_warning ("Omnicache path set to invalid path: " ++ p) ;;;
                     ret None
                else ret (Some p)
            | None => ret None
            end ;;
    ret {| force_it := args_force;
           omnicache_path := omni;
           required_submodules := subs;
           workspace_path := root |}.

Variable cfg : config.

Definition min_git : string := "2.11.0".

Definition upgrade_message (cur_git : string) : string :=
    "Please upgrade Git! Current version is " ++ cur_git
      ++ ". Minimum is " ++ min_git ++ ".".

  (** [".".join(git_version.split(' ')[2].split(".")[:3])] without the
      indexing, which can fail. *)
Definition cur_git_of (field : string) : string :=
    PyStr.join "." (firstn 3 (PyStr.split "." field)).

  (** Lines 112-123: the version query, the report and the comparison. *)
Definition version_check : M W unit :=
    r <- RunCmd VersionQuery "git" "--version" None true ;;
    let git_version := PyStr.strip (snd r) in
    ReportVersion "Git" git_version TOOL ;;;
    field <- index (PyStr.split " " git_version) 2 ;;
    let cur_git := cur_git_of field in
    c <- lift (version_compare h min_git cur_git) ;;
    if c >? 0
    then raise (RuntimeError (upgrade_message cur_git))
    else ret tt.

Definition resolve (sm : RequiredSubmodule) : string :=
    os_path_normpath h (os_path_join h (workspace_path cfg) (path sm)).

Definition ignore_files : string :=
    "-e Build/" ++ GetLoggingFileName "txt" ++ ".txt -e Build/"
      ++ GetLoggingFileName "md" ++ ".md".

  (** Lines 141-150: the body of the loop that cleans the submodules. *)
Definition clean_submodule (sm : RequiredSubmodule) : M W unit :=
    log_progress ("## Cleaning Git repository: " ++ path sm ++ "...") ;;;
    let required_submodule_path := resolve sm in
    RunCmd SubReset "git" "reset --hard" (Some required_submodule_path) true ;;;
    RunCmd SubClean "git" "clean -xffd" (Some required_submodule_path) true ;;;
    log_progress ("Done." ++ PyStr.nl).

  (** Lines 128-150: the body of the first [try]. *)
Definition force_clean : M W unit :=
    log_progress "## Cleaning the root repo..." ;;;
    RunCmd RootReset "git" "reset --hard" (Some (workspace_path cfg)) true ;;;
    RunCmd RootClean "git" ("clean -xffd " ++ ignore_files)
      (Some (workspace_path cfg)) true ;;;
    log_progress ("Done." ++ PyStr.nl) ;;;
    match required_submodules cfg with
    | [] => ret tt
    | _ :: _ => for_each (required_submodules cfg) clean_submodule
    end.

  (** Lines 165-170: the body of the second [try]. *)
Definition sync_step : M W unit :=
    let submodule_string := PyStr.join " " (map path (required_submodules cfg)) in
    log_progress ("## Syncing Git repositories: " ++ submodule_string ++ "...") ;;;
    RunCmd Sync "git" ("submodule sync -- " ++ submodule_string)
      (Some (workspace_path cfg)) true ;;;
    log_progress ("Done." ++ PyStr.nl).

  (** Lines 206-212: the text of the update command. *)
Definition cmd_string (sm : RequiredSubmodule) : string :=
    let s0 := "submodule update --init" in
    let s1 := if recursive sm then s0 ++ " --recursive" else s0 in
    let s2 := s1 ++ " --progress" in
    let s3 := match omnicache_path cfg with
              | Some p => s2 ++ " --reference " ++ p
              | None => s2
              end in
    s3 ++ " " ++ path sm.

  (** Lines 186-200: the decision to skip a repository. *)
Definition skip_decision (sm : RequiredSubmodule) : M W bool :=
    let required_submodule_path := resolve sm in
    ex <- os_path_exists required_submodule_path ;;
    if ex && negb (force_it cfg)
    then
      r <- RunCmd Diff "git" ("diff " ++ path sm) (Some (workspace_path cfg)) true ;;
      let git_data := PyStr.strip (snd r) in
      if negb (String.eqb git_data "")
      then logging_info "-- NOTE: Repo currently exists and appears to have local changes!" ;;;
           logging_info "-- Skipping fetch!" ;;;
           ret true
      else ret false
    else ret false.

  (** Lines 204-217: the fetch. *)
Definition fetch_step (sm : RequiredSubmodule) (skip_repo : bool) : M W unit :=
    if negb skip_repo || force_it cfg
    then
      logging_info "## Fetching repo." ;;;
      r <- RunCmd Fetch "git" (cmd_string sm) (Some (workspace_path cfg)) false ;;
      if negb (fst r =? 0)
      then logging_error ("Failed to fetch " ++ path sm) ;;;
           raise (RuntimeError "Unable to checkout repo due to error")
      else ret tt
    else ret tt.

  (** Lines 181-219: the body of the [try] inside the loop. *)
Definition fetch_body (sm : RequiredSubmodule) : M W unit :=
    log_progress ("## Checking Git repository: " ++ path sm ++ "...") ;;;
    skip_repo <- skip_decision sm ;;
    fetch_step sm skip_repo ;;;
    log_progress ("Done." ++ PyStr.nl).

  (** Lines 180-225: one turn of the loop; [result] is the variable of that
      name, which the handler sets to [-1]. *)
Definition iteration (sm : RequiredSubmodule) (result : Z) : M W Z :=
    try_except_RuntimeError
      (fetch_body sm ;;; ret result)
      (fun msg =>
         logging_error ("FAILED!" ++ PyStr.nl) ;;;
         logging_error ("Failed to fetch required repository!" ++ PyStr.nl) ;;;
         logging_error msg ;;;
         ret (-1)).

  (** Lines 179-225: the loop over the required submodules. *)
Fixpoint fetch_loop (l : list RequiredSubmodule) (result : Z) : M W Z :=
    match l with
    | [] => ret result
    | sm :: r => result' <- iteration sm result ;; fetch_loop r result'
    end.

  (** Lines 126-156: the cleaning before the setup.  A [try] block whose
    handler ends in [return -1] yields [Some (-1)], and [None] when control
    goes on after it. *)
Definition clean_stage : M W (option Z) :=
  if force_it cfg
  then try_except_RuntimeError
         (force_clean ;;; ret None)
         (fun msg =>
            logging_error ("FAILED!" ++ PyStr.nl) ;;;
            logging_error "Error while trying to clean the environment!" ;;;
            logging_error msg ;;;
            ret (Some (-1)))
  else ret None.

(** Lines 164-175: the synchronization of the repositories. *)
Definition sync_stage : M W (option Z) :=
  try_except_RuntimeError
    (sync_step ;;; ret None)
    (fun msg =>
       logging_error ("FAILED!" ++ PyStr.nl) ;;;
       logging_error "Error while trying to synchronize the environment!" ;;;
       logging_error msg ;;;
       ret (Some (-1))).

(** Lines 125-227: what [Go] does once the version check is passed. *)
Definition after_version_check : M W Z :=
  early <- clean_stage ;;
  match early with
  | Some code => ret code
  | None =>
      let result := 0 in
      match required_submodules cfg with
      | [] => ret result
      | _ :: _ =>
          early' <- sync_stage ;;
          match early' with
          | Some code => ret code
          | None => fetch_loop (required_submodules cfg) result
          end
      end
  end.

(** [Edk2PlatformSetup.Go] *)
Definition Go : M W Z :=
  version_check ;;; after_version_check.

End Edk2PlatformSetup.

(** ** A concrete host

    A world for running the model on examples.  It does not change: every
    answer depends only on the command.  [git_says] is the output of the
    version query; a command listed in [failing] exits with code 1, one listed
    in [crashing] makes the process layer raise; [present] are the paths that
    exist and [dirty] the submodule paths whose [diff] prints something. *)

Module Sim.

Record world : Type := {
    git_says : string;
    failing : list (string * option string);
    crashing : list (string * option string);
    present : list string;
    dirty : list string
  }.

Definition opt_eqb (a b : option string) : bool :=
    match a, b with
    | Some x, Some y => String.eqb x y
    | None, None => true
    | _, _ => false
    end.

Definition listed (l : list (string * option string)) (params : string)
      (wd : option string) : bool :=
    existsb (fun e => String.eqb (fst e) params && opt_eqb (snd e) wd) l.

Definition mem (l : list string) (s : string) : bool :=
    existsb (String.eqb s) l.

Definition answer (w : world) (cmd params : string) (wd : option string)
    : response * world :=
    if listed (crashing w) params wd
    then (Crashed (OtherException "UnicodeDecodeError" "invalid start byte"), w)
    else if listed (failing w) params wd then (Exited 1 "", w)
    else if String.eqb params "--version" then (Exited 0 (git_says w), w)
    else if existsb (fun p => String.eqb params ("diff " ++ p)) (dirty w)
    then (Exited 0 ("diff --git a/x b/x" ++ PyStr.nl), w)
    else (Exited 0 "", w).

  (** Modelled from the spec: [version_compare] of [edk2toollib] compares two
      versions component by component as numbers, and is positive when the
      first is the newer one.  A component that is not a decimal numeral
      raises, as [int] does. *)
Fixpoint components (l : list string) : option (list N) :=
    match l with
    | [] => Some []
    | s :: r =>
        match PyStr.parse_decimal s, components r with
        | Some n, Some ns => Some (n :: ns)
        | _, _ => None
        end
    end.

Fixpoint compare_lists (a b : list N) : Z :=
    match a, b with
    | [], [] => 0
    | [], _ :: _ => -1
    | _ :: _, [] => 1
    | x :: a', y :: b' =>
        match N.compare x y with
        | Lt => -1
        | Gt => 1
        | Eq => compare_lists a' b'
        end
    end.

Definition version_compare_model (version1 version2 : string) : outcome Z :=
    match components (PyStr.split "." version1),
          components (PyStr.split "." version2) with
    | Some a, Some b => Returned (compare_lists a b)
    | _, _ => Raised (OtherException "ValueError" "invalid literal for int()")
    end.

  (** A POSIX [os.path.join] for relative second arguments, and a
      [normpath] that leaves such paths as they are. *)
Definition join (a b : string) : string := a ++ "/" ++ b.

Definition host : Host world := {|
    spawn := answer;
    nonzero_message := fun cmd params rc => cmd ++ " " ++ params ++ " failed";
    path_exists := fun w p => mem (present w) p;
    os_path_join := join;
    os_path_normpath := fun p => p;
    version_compare := version_compare_model
  |}.

Definition quiet (v : string) : world :=
    {| git_says := v; failing := []; crashing := []; present := []; dirty := [] |}.

Definition MU : RequiredSubmodule := {| path := "Common/MU"; recursive := true |}.
Definition TEST : RequiredSubmodule := {| path := "Silicon/T"; recursive := false |}.

Definition setup (force : bool) (omni : option string)
      (subs : list RequiredSubmodule) : config :=
    {| force_it := force; omnicache_path := omni;
       required_submodules := subs; workspace_path := "/ws" |}.

End Sim.

(** ** Reading a trace *)

Definition cmd_at (s : site) (e : event) : bool :=
  match e with
  | Cmd s' _ _ _ _ => site_eqb s s'
  | _ => false
  end.

(** The command of the event, if it is one, exited with code 0. *)
Definition cmd_ok (e : event) : bool :=
  match e with
  | Cmd _ _ _ _ (Exited rc _) => rc =? 0
  | Cmd _ _ _ _ (Crashed _) => false
  | _ => true
  end.


Definition is_report (e : event) : bool :=
  match e with
  | Report _ _ _ => true
  | _ => false
  end.

(** Every command of the trace exited with code 0. *)
Definition all_ok (t : list event) : bool := forallb cmd_ok t.




(** ** Laws of the monad *)

Section Laws.

Context {W : Type}.

Lemma bind_inv {A B} (m : M W A) (f : A -> M W B) w o w' t :
    bind m f w = (o, w', t) ->
    (exists a w1 t1 t2,
        m w = (Returned a, w1, t1) /\ f a w1 = (o, w', t2) /\ t = (t1 ++ t2)%list)
    \/ (exists e, m w = (Raised e, w', t) /\ o = Raised e).
  Proof.
    unfold bind. destruct (m w) as [[[a|e] w1] t1].
    - destruct (f a w1) as [[o2 w2] t2] eqn:E. intros H. inversion H; subst.
      left. exists a, w1, t1, t2. auto.
    - intros H. inversion H; subst. right. exists e. auto.
  Qed.

Lemma bind_returned {A B} (m : M W A) (f : A -> M W B) w a w1 t1 :
    m w = (Returned a, w1, t1) ->
    bind m f w = (let '(o, w2, t2) := f a w1 in (o, w2, (t1 ++ t2)%list)).
  Proof. unfold bind. intros ->. destruct (f a w1) as [[? ?] ?]. reflexivity. Qed.

Lemma bind_raised {A B} (m : M W A) (f : A -> M W B) w e w1 t1 :
    m w = (Raised e, w1, t1) -> bind m f w = (Raised e, w1, t1).
  Proof. unfold bind. intros ->. reflexivity. Qed.

Lemma try_inv {A} (m : M W A) (hd : string -> M W A) w o w' t :
    try_except_RuntimeError m hd w = (o, w', t) ->
    (exists a, m w = (Returned a, w', t) /\ o = Returned a)
    \/ (exists msg w1 t1 t2,
          m w = (Raised (RuntimeError msg), w1, t1)
          /\ hd msg w1 = (o, w', t2) /\ t = (t1 ++ t2)%list)
    \/ (exists e, m w = (Raised e, w', t) /\ o = Raised e
                  /\ forall msg, e <> RuntimeError msg).
  Proof.
    unfold try_except_RuntimeError. destruct (m w) as [[[a|e] w1] t1].
    - intros H. inversion H; subst. left. eauto.
    - destruct e as [msg|msg|cls msg].
      + destruct (hd msg w1) as [[o2 w2] t2] eqn:E. intros H. inversion H; subst.
        right. left. exists msg, w1, t1, t2. auto.
      + intros H. inversion H; subst. right. right. eexists. repeat split. discriminate.
      + intros H. inversion H; subst. right. right. eexists. repeat split. discriminate.
  Qed.






  (** A computation emits [P] when every event it produces satisfies [P]. *)
Definition emits {A} (P : event -> Prop) (m : M W A) : Prop :=
  forall w o w' t, m w = (o, w', t) -> Forall P t.

Lemma emits_ret {A} P (a : A) : emits P (ret a : M W A).
Proof. intros w o w' t H. inversion H. constructor. Qed.

Lemma emits_raise {A} P e : emits P (raise e : M W A).
Proof. intros w o w' t H. inversion H. constructor. Qed.

Lemma emits_lift {A} P (x : outcome A) : emits P (lift x : M W A).
Proof. intros w o w' t H. inversion H. constructor. Qed.

Lemma emits_emit (P : event -> Prop) e : P e -> emits P (emit e : M W unit).
Proof. intros He w o w' t H. inversion H. repeat constructor. exact He. Qed.

Lemma emits_bind {A B} P (m : M W A) (f : A -> M W B) :
  emits P m -> (forall a, emits P (f a)) -> emits P (bind m f).
Proof.
  intros Hm Hf w o w' t H.
  apply bind_inv in H as [(a & w1 & t1 & t2 & H1 & H2 & ->)|(e & H1 & ->)].
  - apply Forall_app. split; [exact (Hm _ _ _ _ H1)|exact (Hf _ _ _ _ _ H2)].
  - exact (Hm _ _ _ _ H1).
Qed.

Lemma emits_try {A} P (m : M W A) (hd : string -> M W A) :
  emits P m -> (forall msg, emits P (hd msg)) ->
  emits P (try_except_RuntimeError m hd).
Proof.
  intros Hm Hh w o w' t H.
  apply try_inv in H
    as [(a & H1 & ->)|[(msg & w1 & t1 & t2 & H1 & H2 & ->)|(e & H1 & -> & _)]].
  - exact (Hm _ _ _ _ H1).
  - apply Forall_app. split; [exact (Hm _ _ _ _ H1)|exact (Hh _ _ _ _ _ H2)].
  - exact (Hm _ _ _ _ H1).
Qed.

Lemma emits_for_each {A} P (l : list A) (body : A -> M W unit) :
  (forall x, In x l -> emits P (body x)) -> emits P (for_each l body).
Proof.
  induction l as [|x l IH]; simpl; intros Hb.
  - apply emits_ret.
  - apply emits_bind; [apply Hb; auto|]. intros _. apply IH. auto.
Qed.

Lemma emits_weaken {A} (P Q : event -> Prop) (m : M W A) :
  (forall e, P e -> Q e) -> emits P m -> emits Q m.
Proof.
  intros HPQ Hm w o w' t H. eapply Forall_impl; [exact HPQ|exact (Hm _ _ _ _ H)].
Qed.

End Laws.

(** ** [RunCmd] and the other primitives *)

Ltac run_in H :=
  cbv [bind logging_error logging_info logging_warning log_progress
       ReportVersion emit ret raise lift] in H; cbn [app] in H.

Section Primitives.

Context {W : Type} (h : Host W).

Lemma RunCmd_inv s c p d (rz : bool) w o w' t :
  RunCmd h s c p d rz w = (o, w', t) ->
  exists resp,
    spawn h w c p d = (resp, w') /\ t = [Cmd s c p d resp] /\
    match resp with
    | Exited rc out =>
        if rz && negb (rc =? 0)
        then o = Raised (RuntimeError (nonzero_message h c p rc))
        else o = Returned (rc, out)
    | Crashed e => o = Raised e
    end.
Proof.
  unfold RunCmd. destruct (spawn h w c p d) as [[rc out|e] w1].
  - destruct (rz && negb (rc =? 0)) eqn:E; intros H; inversion H; subst;
      eexists; repeat split; rewrite E; reflexivity.
  - intros H; inversion H; subst. eexists; repeat split.
Qed.


Lemma emits_RunCmd (P : event -> Prop) s c p d rz :
  (forall resp, P (Cmd s c p d resp)) -> emits P (RunCmd h s c p d rz).
Proof.
  intros HP w o w' t H. apply RunCmd_inv in H as (resp & _ & -> & _).
  repeat constructor. apply HP.
Qed.


Lemma emits_os_path_exists P p : emits P (os_path_exists h p).
Proof. intros w o w' t H. inversion H; subst. constructor. Qed.


End Primitives.


Ltac emitting :=
  repeat match goal with
    | |- emits _ (bind _ _) => apply emits_bind; [|intros ?]
    | |- emits _ (RunCmd _ _ _ _ _ _) => apply emits_RunCmd; intros ?
    | |- emits _ (emit _) => apply emits_emit
    | |- emits _ (ret _) => apply emits_ret
    | |- emits _ (raise _) => apply emits_raise
    | |- emits _ (lift _) => apply emits_lift
    | |- emits _ (os_path_exists _ _) => apply emits_os_path_exists
    | |- emits _ (try_except_RuntimeError _ _) => apply emits_try; [|intros ?]
    | |- emits _ (if ?b then _ else _) => destruct b eqn:?
    | |- emits _ (match ?x with _ => _ end) => destruct x eqn:?
    end.

(** ** The stages of [Go] *)

Section Stages.

Context {W : Type} (h : Host W) (cfg : config).













(** *** The version check *)

Definition version_events (out : string) : list event :=
  [Cmd VersionQuery "git" "--version" None (Exited 0 out);
   Report "Git" (PyStr.strip out) TOOL].

Lemma version_check_run w out w1 :
  spawn h w "git" "--version" None = (Exited 0 out, w1) ->
  version_check h w =
    match nth_error (PyStr.split " " (PyStr.strip out)) 2 with
    | None => (Raised (IndexError "list index out of range"), w1, version_events out)
    | Some field =>
        match version_compare h min_git (cur_git_of field) with
        | Returned c =>
            if c >? 0
            then (Raised (RuntimeError (upgrade_message (cur_git_of field))),
                  w1, version_events out)
            else (Returned tt, w1, version_events out)
        | Raised e => (Raised e, w1, version_events out)
        end
    end.
Proof.
  intros E. unfold version_check, bind, RunCmd, ReportVersion, emit, index, lift.
  rewrite E. cbn [andb negb Z.eqb snd fst].
  generalize (nth_error (PyStr.split " " (PyStr.strip out)) 2).
  intros [field|]; [|reflexivity].
  unfold ret at 1. cbn [app].
  destruct (version_compare h min_git (cur_git_of field)) as [c|e]; [|reflexivity].
  destruct (c >? 0); reflexivity.
Qed.

Lemma version_check_returned w u w1 t1 :
  version_check h w = (Returned u, w1, t1) ->
  exists out field c,
    spawn h w "git" "--version" None = (Exited 0 out, w1)
    /\ nth_error (PyStr.split " " (PyStr.strip out)) 2 = Some field
    /\ version_compare h min_git (cur_git_of field) = Returned c
    /\ c <= 0 /\ t1 = version_events out.
Proof.
  destruct (spawn h w "git" "--version" None) as [[rc out|e] w2] eqn:E.
  - destruct (rc =? 0) eqn:Erc.
    + apply Z.eqb_eq in Erc. subst rc. rewrite (version_check_run _ _ _ E).
      destruct (nth_error (PyStr.split " " (PyStr.strip out)) 2) as [field|] eqn:En; [|discriminate].
      destruct (version_compare h min_git (cur_git_of field)) as [c|e] eqn:Ev;
        [|discriminate].
      destruct (c >? 0) eqn:Ec; [discriminate|].
      intros H. inversion H; subst. exists out, field, c.
      repeat split; auto. rewrite Z.gtb_ltb in Ec. apply Z.ltb_ge in Ec. lia.
    + unfold version_check, bind, RunCmd. rewrite E. simpl. rewrite Erc. simpl.
      discriminate.
  - unfold version_check, bind, RunCmd. rewrite E. discriminate.
Qed.

(** *** What a run can emit *)

(** The commands [Go] can issue, site by site, with the text, the working
    directory and the condition under which the site is reached. *)
Definition expected (e : event) : Prop :=
  match e with
  | Cmd VersionQuery c p d _ => c = "git" /\ p = "--version" /\ d = None
  | Cmd RootReset c p d _ =>
      force_it cfg = true /\ c = "git" /\ p = "reset --hard"
      /\ d = Some (workspace_path cfg)
  | Cmd RootClean c p d _ =>
      force_it cfg = true /\ c = "git" /\ p = "clean -xffd " ++ ignore_files
      /\ d = Some (workspace_path cfg)
  | Cmd SubReset c p d _ =>
      force_it cfg = true /\ c = "git" /\ p = "reset --hard"
      /\ exists sm, In sm (required_submodules cfg) /\ d = Some (resolve h cfg sm)
  | Cmd SubClean c p d _ =>
      force_it cfg = true /\ c = "git" /\ p = "clean -xffd"
      /\ exists sm, In sm (required_submodules cfg) /\ d = Some (resolve h cfg sm)
  | Cmd Sync c p d _ =>
      required_submodules cfg <> [] /\ c = "git"
      /\ p = "submodule sync -- "
               ++ PyStr.join " " (map path (required_submodules cfg))
      /\ d = Some (workspace_path cfg)
  | Cmd Diff c p d _ =>
      force_it cfg = false /\ c = "git" /\ d = Some (workspace_path cfg)
      /\ exists sm, In sm (required_submodules cfg) /\ p = "diff " ++ path sm
  | Cmd Fetch c p d _ =>
      c = "git" /\ d = Some (workspace_path cfg)
      /\ exists sm, In sm (required_submodules cfg) /\ p = cmd_string cfg sm
  | Log _ _ => True
  | Report name _ ty => name = "Git" /\ ty = TOOL
  end.

Lemma version_check_expected : emits expected (version_check h).
Proof.
  unfold version_check, ReportVersion, index. emitting; simpl; auto.
Qed.

Lemma for_each_guard {A} (l : list A) (f : A -> M W unit) :
  match l with [] => ret tt | _ :: _ => for_each l f end = for_each l f.
Proof. destruct l; reflexivity. Qed.

Lemma clean_stage_expected : emits expected (clean_stage h cfg).
Proof.
  unfold clean_stage, force_clean, log_progress, logging_error.
  rewrite for_each_guard.
  emitting; try (simpl; auto; fail).
  apply emits_for_each. intros sm Hin.
  unfold clean_submodule, log_progress. emitting; simpl; eauto 10.
Qed.

Lemma sync_stage_expected :
  required_submodules cfg <> [] -> emits expected (sync_stage h cfg).
Proof.
  intros Hne. unfold sync_stage, sync_step, log_progress, logging_error.
  emitting; simpl; auto.
Qed.

Lemma iteration_expected sm r :
  In sm (required_submodules cfg) -> emits expected (iteration h cfg sm r).
Proof.
  intros Hin.
  unfold iteration, fetch_body, skip_decision, fetch_step, log_progress,
    logging_info, logging_error.
  emitting; cbn [expected]; try exact I.
  - apply andb_prop in Heqb as [_ Hf]. apply negb_true_iff in Hf.
    repeat split; auto. exists sm. auto.
  - repeat split; auto. exists sm. auto.
Qed.

Lemma fetch_loop_expected l : forall r,
  (forall sm, In sm l -> In sm (required_submodules cfg)) ->
  emits expected (fetch_loop h cfg l r).
Proof.
  induction l as [|sm l IH]; simpl; intros r Hl.
  - apply emits_ret.
  - apply emits_bind; [apply iteration_expected; auto|].
    intros r'. apply IH. auto.
Qed.

Lemma after_version_check_expected : emits expected (after_version_check h cfg).
Proof.
  unfold after_version_check.
  apply emits_bind; [apply clean_stage_expected|]. intros [code|].
  - apply emits_ret.
  - destruct (required_submodules cfg) as [|sm l] eqn:El.
    + apply emits_ret.
    + apply emits_bind.
      * apply sync_stage_expected. rewrite El. discriminate.
      * intros [code|]; [apply emits_ret|].
        rewrite <- El. apply fetch_loop_expected. auto.
Qed.

Lemma Go_expected : emits expected (Go h cfg).
Proof.
  unfold Go. apply emits_bind; [apply version_check_expected|].
  intros _. apply after_version_check_expected.
Qed.

(** After the version check nothing is reported and the version is not
    asked again. *)
Lemma after_version_check_quiet :
  emits (fun e => is_report e = false /\ cmd_at VersionQuery e = false)
        (after_version_check h cfg).
Proof.
  unfold after_version_check, clean_stage, force_clean, sync_stage, sync_step,
    log_progress, logging_error.
  assert (Hl : forall l r,
             emits (fun e => is_report e = false /\ cmd_at VersionQuery e = false)
                   (fetch_loop h cfg l r)).
  { induction l as [|sm l IH]; simpl; intros r; [apply emits_ret|].
    apply emits_bind; [|intros ?; apply IH].
    unfold iteration, fetch_body, skip_decision, fetch_step, log_progress,
      logging_info, logging_error.
    emitting; simpl; auto. }
  rewrite for_each_guard.
  emitting; try (simpl; auto; fail); try apply Hl;
    try (apply emits_for_each; intros sm Hin;
         unfold clean_submodule, log_progress; emitting; simpl; auto).
Qed.

End Stages.

(** ** The result code of a run *)





(** ** The version report *)

(** C10.  When the version query gives a version string, [Go] reports it to
    the registry under the name "Git" and the category [TOOL] right after the
    query, before the string is taken apart and compared: the report is the
    second event of the run whatever the comparison says, and it is the only
    report.  In a run that stops for an unsupported version the trace is the
    query and the report. *)
Theorem version_is_reported_once {W : Type} (h : Host W) (cfg : config)
    (w w1 w' : W) (out : string) (o : outcome Z) (t : list event) :
  spawn h w "git" "--version" None = (Exited 0 out, w1) ->
  Go h cfg w = (o, w', t) ->
  exists rest,
    t = Cmd VersionQuery "git" "--version" None (Exited 0 out)
          :: Report "Git" (PyStr.strip out) TOOL :: rest
    /\ Forall (fun e => is_report e = false) rest
    /\ length (filter is_report t) = 1%nat
    /\ (forall field c,
           nth_error (PyStr.split " " (PyStr.strip out)) 2 = Some field ->
           version_compare h min_git (cur_git_of field) = Returned c ->
           c > 0 ->
           rest = []
           /\ o = Raised (RuntimeError (upgrade_message (cur_git_of field)))).
Proof.
  intros Hs H.
  assert (Hq : forall rest, Forall (fun e => is_report e = false) rest ->
                            length (filter is_report rest) = 0%nat).
  { induction 1 as [|e l He _ IH]; simpl; [reflexivity|]. now rewrite He. }
  pose proof (version_check_run h w out w1 Hs) as Hv.
  unfold Go in H.
  destruct (nth_error (PyStr.split " " (PyStr.strip out)) 2) as [field|] eqn:En.
  2:{ rewrite (bind_raised _ _ _ _ _ _ Hv) in H. inversion H; subst.
      exists []. refine (conj eq_refl (conj _ (conj eq_refl _))); auto.
      intros; discriminate. }
  destruct (version_compare h min_git (cur_git_of field)) as [c|e] eqn:Ec.
  2:{ rewrite (bind_raised _ _ _ _ _ _ Hv) in H. inversion H; subst.
      exists []. refine (conj eq_refl (conj _ (conj eq_refl _))); auto.
      intros ? ? [= <-] Hc'. rewrite Ec in Hc'. discriminate. }
  destruct (c >? 0) eqn:Eg.
  - rewrite (bind_raised _ _ _ _ _ _ Hv) in H. inversion H; subst.
    exists []. refine (conj eq_refl (conj _ (conj eq_refl _))); auto.
    intros ? ? [= <-] Hc' _. rewrite Ec in Hc'. inversion Hc'. auto.
  - rewrite (bind_returned _ _ _ _ _ _ Hv) in H.
    destruct (after_version_check h cfg w1) as [[o2 w2] t2] eqn:Ea.
    inversion H; subst. exists t2.
    assert (Hr : Forall (fun e => is_report e = false) t2).
    { eapply Forall_impl; [|exact (after_version_check_quiet h cfg _ _ _ _ Ea)].
      simpl. intros e [He _]. exact He. }
    refine (conj eq_refl (conj Hr (conj _ _))).
    + simpl. now rewrite (Hq _ Hr).
    + intros ? ? [= <-] Hc' Hgt. rewrite Ec in Hc'. inversion Hc'; subst.
      apply Z.gt_lt, Z.ltb_lt in Hgt. rewrite Z.gtb_ltb in Eg. congruence.
Qed.

(** git 2.10.0 is reported although the run stops at the comparison. *)
Lemma version_is_reported_once_witness :
  exists rest,
    snd (Go Sim.host (Sim.setup true None [Sim.MU]) (Sim.quiet "git version 2.10.0"))
      = Cmd VersionQuery "git" "--version" None (Exited 0 "git version 2.10.0")
          :: Report "Git" "git version 2.10.0" TOOL :: rest.
Proof.
  destruct (version_is_reported_once Sim.host (Sim.setup true None [Sim.MU])
              (Sim.quiet "git version 2.10.0") _ _ "git version 2.10.0" _ _
              eq_refl eq_refl) as (rest & Ht & _).
  exists rest. exact Ht.
Defined.

(** ** An empty list of submodules *)

Lemma Go_passed {W : Type} (h : Host W) (cfg : config) (w : W) u w1 t1 :
  version_check h w = (Returned u, w1, t1) ->
  Go h cfg w =
    (let '(o, w2, t2) := after_version_check h cfg w1 in (o, w2, (t1 ++ t2)%list)).
Proof.
  intros Hv. unfold Go, bind. rewrite Hv.
  destruct (after_version_check h cfg w1) as [[? ?] ?]. reflexivity.
Qed.

Lemma Go_passed_inv {W : Type} (h : Host W) (cfg : config) (w : W) u w1 t1 o w' t :
  version_check h w = (Returned u, w1, t1) ->
  Go h cfg w = (o, w', t) ->
  exists t2, after_version_check h cfg w1 = (o, w', t2) /\ t = (t1 ++ t2)%list.
Proof.
  intros Hv H. rewrite (Go_passed h cfg w _ _ _ Hv) in H.
  destruct (after_version_check h cfg w1) as [[o2 w2] t2].
  inversion H; subst. eauto.
Qed.




(** ** The log files and the root clean *)

(** The two names line 133 builds from [GetLoggingFileName]. *)
Definition log_file (ext : string) : string :=
  "Build/" ++ GetLoggingFileName ext ++ "." ++ ext.

(** The trace of a computation starts with the trace of its first part. *)
Lemma bind_prefix {W A B} (m : M W A) (f : A -> M W B) w o w' t o1 w1 t1 :
  bind m f w = (o, w', t) -> m w = (o1, w1, t1) ->
  exists t2, t = (t1 ++ t2)%list.
Proof.
  intros H H1. apply bind_inv in H as [(a & w2 & t3 & t4 & H2 & _ & ->)|(e & H2 & _)];
    rewrite H1 in H2; inversion H2; subst; eauto.
  exists []. now rewrite app_nil_r.
Qed.

Lemma try_prefix {W A} (m : M W A) (hd : string -> M W A) w o w' t o1 w1 t1 :
  try_except_RuntimeError m hd w = (o, w', t) -> m w = (o1, w1, t1) ->
  exists t2, t = (t1 ++ t2)%list.
Proof.
  intros H H1. apply try_inv in H
    as [(a & H2 & _)|[(msg & w2 & t3 & t4 & H2 & _ & ->)|(e & H2 & _)]];
    rewrite H1 in H2; inversion H2; subst; eauto;
    exists []; now rewrite app_nil_r.
Qed.

(** When the root reset succeeds, the root clean is the next command. *)
Lemma force_clean_begins {W : Type} (h : Host W) (cfg : config) w out w2 :
  spawn h w "git" "reset --hard" (Some (workspace_path cfg)) = (Exited 0 out, w2) ->
  exists resp o w' rest,
    force_clean h cfg w =
      (o, w',
       Log PROGRESS "## Cleaning the root repo..."
         :: Cmd RootReset "git" "reset --hard" (Some (workspace_path cfg)) (Exited 0 out)
         :: Cmd RootClean "git" ("clean -xffd " ++ ignore_files)
              (Some (workspace_path cfg)) resp
         :: rest).
Proof.
  intros Hs. unfold force_clean, log_progress, emit.
  unfold bind at 1. unfold bind at 1. unfold RunCmd at 1. rewrite Hs.
  cbn [andb negb Z.eqb app].
  unfold bind at 1. unfold RunCmd at 1.
  destruct (spawn h w2 "git" ("clean -xffd " ++ ignore_files)
              (Some (workspace_path cfg))) as [[rc o2|e] w3].
  - destruct (true && negb (rc =? 0)).
    + do 4 eexists. reflexivity.
    + match goal with |- context [bind ?m ?f w3] => destruct (bind m f w3) as [[o3 w4] t4] end.
      do 4 eexists. reflexivity.
  - do 4 eexists. reflexivity.
Qed.

(** C9.  Every clean command issued for the workspace root names both log
    files after [-e]: its text is [clean -xffd -e Build/SETUPLOG.txt -e
    Build/SETUPLOG.md], built from [GetLoggingFileName], and it runs in the
    workspace root.  In a run with [force] that gets past the reset of the
    root, this command is issued. *)
Theorem root_clean_excludes_log_files {W : Type} (h : Host W) (cfg : config)
    (w w' : W) (o : outcome Z) (t : list event) :
  Go h cfg w = (o, w', t) ->
  Forall (fun e =>
            match e with
            | Cmd RootClean c p d _ =>
                c = "git" /\ d = Some (workspace_path cfg)
                /\ p = "clean -xffd -e " ++ log_file "txt" ++ " -e " ++ log_file "md"
                /\ p = "clean -xffd -e Build/SETUPLOG.txt -e Build/SETUPLOG.md"
            | _ => True
            end) t
  /\ (forall u w1 t1 out w2,
         force_it cfg = true ->
         version_check h w = (Returned u, w1, t1) ->
         spawn h w1 "git" "reset --hard" (Some (workspace_path cfg))
           = (Exited 0 out, w2) ->
         exists resp,
           In (Cmd RootClean "git"
                 "clean -xffd -e Build/SETUPLOG.txt -e Build/SETUPLOG.md"
                 (Some (workspace_path cfg)) resp) t).
Proof.
  intros H. split.
  - eapply Forall_impl; [|exact (Go_expected h cfg _ _ _ _ H)].
    intros [s c p d r|l m|n v ty]; simpl; auto.
    destruct s; auto. intros (_ & -> & -> & ->). auto.
  - intros u w1 t1 out w2 Hf Hv Hs.
    destruct (Go_passed_inv h cfg w _ _ _ _ _ _ Hv H) as (t2 & Ha & ->).
    destruct (force_clean_begins h cfg w1 out w2 Hs) as (resp & o3 & w3 & rest & Hfc).
    exists resp. apply in_or_app. right.
    unfold after_version_check, clean_stage in Ha. rewrite Hf in Ha.
    destruct (try_except_RuntimeError
                (force_clean h cfg;;; ret None)
                (fun msg => logging_error ("FAILED!" ++ PyStr.nl);;;
                            logging_error "Error while trying to clean the environment!";;;
                            logging_error msg;;; ret (Some (-1))) w1)
      as [[o4 w4] t4] eqn:Et.
    destruct (bind_prefix _ _ _ _ _ _ _ _ _ Ha Et) as (t5 & ->).
    destruct ((force_clean h cfg;;; ret (@None Z)) w1) as [[o6 w6] t6] eqn:Eb.
    destruct (try_prefix _ _ _ _ _ _ _ _ _ Et Eb) as (t7 & ->).
    destruct (bind_prefix _ _ _ _ _ _ _ _ _ Eb Hfc) as (t8 & ->).
    simpl. auto.
Qed.

(** A forced run on a clean tree issues the root clean with both names. *)
Lemma root_clean_excludes_log_files_witness :
  exists resp,
    In (Cmd RootClean "git" "clean -xffd -e Build/SETUPLOG.txt -e Build/SETUPLOG.md"
          (Some "/ws") resp)
       (snd (Go Sim.host (Sim.setup true None [Sim.MU]) (Sim.quiet "git version 2.30.0"))).
Proof.
  exact (proj2 (root_clean_excludes_log_files Sim.host (Sim.setup true None [Sim.MU])
                  (Sim.quiet "git version 2.30.0") _ _ _ eq_refl)
           tt _ _ "" _ eq_refl eq_refl eq_refl).
Defined.

(** ** The omnicache *)

(** The text of an update command: with the reference flag when [ref] holds
    a path, without it otherwise. *)
Definition update_text (ref : option string) (sm : RequiredSubmodule) : string :=
  "submodule update --init"
    ++ (if recursive sm then " --recursive" else "")
    ++ " --progress"
    ++ match ref with Some p => " --reference " ++ p | None => "" end
    ++ " " ++ path sm.

Lemma cmd_string_text (cfg : config) (sm : RequiredSubmodule) :
  cmd_string cfg sm = update_text (omnicache_path cfg) sm.
Proof.
  unfold cmd_string, update_text.
  destruct (recursive sm), (omnicache_path cfg); cbn [append]; reflexivity.
Qed.

(** C8.  [RetrieveCommandLineOptions] never fails on an omnicache argument.
    When the path does not exist it logs one warning and leaves
    [omnicache_path] unset, and then no update command of any run with that
    configuration carries [--reference]; when the path exists it is kept, and
    every update command carries [--reference] and the path. *)
Theorem omnicache_reference {W : Type} (h : Host W) (force : bool) (p : string)
    (subs : list RequiredSubmodule) (root : string) (w0 : W) :
  let valid := path_exists h w0 p in
  exists cfg,
    RetrieveCommandLineOptions h force (Some p) subs root w0
      = (Returned cfg, w0,
         if valid then []
         else [Log WARNING ("Omnicache path set to invalid path: " ++ p)])
    /\ omnicache_path cfg = (if valid then Some p else None)
    /\ force_it cfg = force /\ required_submodules cfg = subs
    /\ workspace_path cfg = root
    /\ forall w o w' t,
         Go h cfg w = (o, w', t) ->
         Forall (fun e =>
                   match e with
                   | Cmd Fetch c ps d _ =>
                       exists sm, In sm subs
                         /\ ps = update_text (if valid then Some p else None) sm
                   | _ => True
                   end) t.
Proof.
  intros valid.
  exists {| force_it := force;
            omnicache_path := if valid then Some p else None;
            required_submodules := subs; workspace_path := root |}.
  split; [|repeat split].
  - unfold RetrieveCommandLineOptions, os_path_exists, logging_warning, emit, bind, ret.
    fold valid. destruct valid; reflexivity.
  - intros w o w' t H.
    eapply Forall_impl; [|exact (Go_expected h _ _ _ _ _ H)].
    intros [s c ps d r|l m|n v ty]; simpl; auto.
    destruct s; auto. intros (_ & _ & sm & Hin & ->).
    exists sm. split; [exact Hin|]. apply cmd_string_text.
Qed.

(** A run configured with an omnicache path that does not exist, and one
    with a path that exists: the update commands they issue. *)
Example omnicache_missing_run :
  let w := Sim.quiet "git version 2.30.0" in
  exists cfg,
    RetrieveCommandLineOptions Sim.host false (Some "/omni") [Sim.MU] "/ws" w
      = (Returned cfg, w, [Log WARNING "Omnicache path set to invalid path: /omni"])
    /\ filter (cmd_at Fetch) (snd (Go Sim.host cfg w))
       = [Cmd Fetch "git" "submodule update --init --recursive --progress Common/MU"
            (Some "/ws") (Exited 0 "")].
Proof. eexists. split; reflexivity. Qed.

Example omnicache_present_run :
  let w := {| Sim.git_says := "git version 2.30.0"; Sim.failing := [];
              Sim.crashing := []; Sim.present := ["/omni"]; Sim.dirty := [] |} in
  exists cfg,
    RetrieveCommandLineOptions Sim.host false (Some "/omni") [Sim.MU] "/ws" w
      = (Returned cfg, w, [])
    /\ filter (cmd_at Fetch) (snd (Go Sim.host cfg w))
       = [Cmd Fetch "git"
            "submodule update --init --recursive --progress --reference /omni Common/MU"
            (Some "/ws") (Exited 0 "")].
Proof. eexists. split; reflexivity. Qed.

Lemma omnicache_reference_witness :
  exists cfg,
    RetrieveCommandLineOptions Sim.host false (Some "/omni") [Sim.MU] "/ws"
        (Sim.quiet "git version 2.30.0")
      = (Returned cfg, Sim.quiet "git version 2.30.0",
         [Log WARNING "Omnicache path set to invalid path: /omni"])
    /\ omnicache_path cfg = None.
Proof.
  destruct (omnicache_reference Sim.host false "/omni" [Sim.MU] "/ws"
              (Sim.quiet "git version 2.30.0")) as (cfg & H1 & H2 & _).
  exists cfg. split; [exact H1|exact H2].
Defined.

(** ** One turn of the loop *)

Section Turns.

Context {W : Type} (h : Host W) (cfg : config).

Definition checking (sm : RequiredSubmodule) : event :=
  Log PROGRESS ("## Checking Git repository: " ++ path sm ++ "...").

Definition done_event : event := Log PROGRESS ("Done." ++ PyStr.nl).

Definition diff_event (sm : RequiredSubmodule) (resp : response) : event :=
  Cmd Diff "git" ("diff " ++ path sm) (Some (workspace_path cfg)) resp.

Definition fetch_event (sm : RequiredSubmodule) (resp : response) : event :=
  Cmd Fetch "git" (cmd_string cfg sm) (Some (workspace_path cfg)) resp.

Definition skip_notes : list event :=
  [Log INFO "-- NOTE: Repo currently exists and appears to have local changes!";
   Log INFO "-- Skipping fetch!"].

(** What the handler of the loop logs for [str(e)]. *)
Definition failure_logs (msg : string) : list event :=
  [Log ERROR ("FAILED!" ++ PyStr.nl);
   Log ERROR ("Failed to fetch required repository!" ++ PyStr.nl);
   Log ERROR msg].

(** What the handler makes of an exception [e] raised after the events
    [t]: a [RuntimeError] is logged and gives -1, another class goes on. *)
Definition handled (e : exn) (w : W) (t : list event) : outcome Z * W * list event :=
  match e with
  | RuntimeError msg => (Returned (-1), w, (t ++ failure_logs msg)%list)
  | _ => (Raised e, w, t)
  end.

(** The fetch of [sm] in the world [w], after the events [pre] of the same
    turn. *)
Definition fetch_turn (sm : RequiredSubmodule) (r : Z) (w : W) (pre : list event)
  : outcome Z * W * list event :=
  match spawn h w "git" (cmd_string cfg sm) (Some (workspace_path cfg)) with
  | (Exited rc out, w2) =>
      let t := (pre ++ [Log INFO "## Fetching repo."; fetch_event sm (Exited rc out)])%list in
      if rc =? 0
      then (Returned r, w2, (t ++ [done_event])%list)
      else handled (RuntimeError "Unable to checkout repo due to error") w2
             (t ++ [Log ERROR ("Failed to fetch " ++ path sm)])%list
  | (Crashed e, w2) =>
      handled e w2
        (pre ++ [Log INFO "## Fetching repo."; fetch_event sm (Crashed e)])%list
  end.

(** One turn of the loop, written out: the commands it issues and what
    their answers lead to. *)
Definition turn_of (sm : RequiredSubmodule) (r : Z) (w : W)
  : outcome Z * W * list event :=
  if path_exists h w (resolve h cfg sm) && negb (force_it cfg)
  then
    match spawn h w "git" ("diff " ++ path sm) (Some (workspace_path cfg)) with
    | (Exited rc out, w1) =>
        if rc =? 0
        then
          if String.eqb (PyStr.strip out) ""
          then fetch_turn sm r w1 [checking sm; diff_event sm (Exited rc out)]
          else (Returned r, w1,
                (checking sm :: diff_event sm (Exited rc out) :: skip_notes
                   ++ [done_event])%list)
        else handled (RuntimeError (nonzero_message h "git" ("diff " ++ path sm) rc))
               w1 [checking sm; diff_event sm (Exited rc out)]
    | (Crashed e, w1) => handled e w1 [checking sm; diff_event sm (Crashed e)]
    end
  else fetch_turn sm r w [checking sm].

Lemma iteration_run (sm : RequiredSubmodule) (r : Z) (w : W) :
  iteration h cfg sm r w = turn_of sm r w.
Proof.
  unfold iteration, turn_of, fetch_turn, handled, try_except_RuntimeError,
    fetch_body, skip_decision, fetch_step, RunCmd, os_path_exists,
    log_progress, logging_info, logging_error, emit, bind, ret, raise,
    checking, diff_event, fetch_event, failure_logs, skip_notes, done_event.
  destruct (path_exists h w (resolve h cfg sm)), (force_it cfg);
    cbn [andb negb orb];
    repeat (match goal with
            | |- context [spawn h ?w0 ?c ?p ?d] =>
                let E := fresh "E" in
                destruct (spawn h w0 c p d) as [[? ?|[?|?|? ?]] ?] eqn:E;
                cbn [andb negb orb fst snd app]; rewrite ?E
            | |- context [?rc =? 0] =>
                let E := fresh "E" in
                destruct (rc =? 0) eqn:E;
                cbn [andb negb orb fst snd app]; rewrite ?E
            | |- context [String.eqb ?a ?b] =>
                let E := fresh "E" in
                destruct (String.eqb a b) eqn:E;
                cbn [andb negb orb fst snd app]; rewrite ?E
            end; cbn [andb negb orb fst snd app]);
    repeat match goal with
           | H : (_, _) = (_, _) |- _ => inversion H; clear H; subst
           end;
    try reflexivity; congruence.
Qed.

End Turns.

(** ** A dirty submodule *)

(** The events of a turn that skips its submodule. *)
Definition skipped_turn (cfg : config) (sm : RequiredSubmodule) (out : string)
  : list event :=
  [checking sm; diff_event cfg sm (Exited 0 out);
   Log INFO "-- NOTE: Repo currently exists and appears to have local changes!";
   Log INFO "-- Skipping fetch!";
   done_event].

(** C4.  With [force] unset, an entry whose resolved path exists and whose
    [diff] (exit code 0) prints something is skipped: its turn consists of
    the progress line, the diff, the two notes and "Done.", so no update
    command is issued; the turn returns the result it was given, and the loop
    goes on with the remaining entries and that same result.  Alone in the
    list, the entry leaves the result of the loop at 0. *)
Theorem dirty_submodule_is_skipped {W : Type} (h : Host W) (cfg : config)
    (sm : RequiredSubmodule) (r : Z) (w w1 : W) (out : string) :
  force_it cfg = false ->
  path_exists h w (resolve h cfg sm) = true ->
  spawn h w "git" ("diff " ++ path sm) (Some (workspace_path cfg))
    = (Exited 0 out, w1) ->
  PyStr.strip out <> "" ->
  iteration h cfg sm r w = (Returned r, w1, skipped_turn cfg sm out)
  /\ Forall (fun e => cmd_at Fetch e = false) (skipped_turn cfg sm out)
  /\ (forall rest,
         fetch_loop h cfg (sm :: rest) r w =
           (let '(o, w', t) := fetch_loop h cfg rest r w1 in
            (o, w', (skipped_turn cfg sm out ++ t)%list)))
  /\ fetch_loop h cfg [sm] 0 w = (Returned 0, w1, skipped_turn cfg sm out).
Proof.
  intros Hf He Hs Hd.
  assert (Hi : forall r', iteration h cfg sm r' w
                          = (Returned r', w1, skipped_turn cfg sm out)).
  { intros r'. rewrite iteration_run. unfold turn_of. rewrite He, Hf, Hs.
    cbn [andb negb Z.eqb].
    destruct (String.eqb_spec (PyStr.strip out) ""); [contradiction|reflexivity]. }
  split; [apply Hi|]. split; [repeat constructor|]. split.
  - intros rest. cbn [fetch_loop]. unfold bind at 1. rewrite Hi.
    destruct (fetch_loop h cfg rest r w1) as [[o w'] t]. reflexivity.
  - cbn [fetch_loop]. unfold bind, ret. rewrite Hi. reflexivity.
Qed.

(** A run over one dirty submodule returns 0 and updates nothing. *)
Lemma dirty_submodule_is_skipped_witness :
  let w := {| Sim.git_says := "git version 2.30.0"; Sim.failing := [];
              Sim.crashing := []; Sim.present := ["/ws/Common/MU"];
              Sim.dirty := ["Common/MU"] |} in
  iteration Sim.host (Sim.setup false None [Sim.MU]) Sim.MU 0 w
    = (Returned 0, w,
       skipped_turn (Sim.setup false None [Sim.MU]) Sim.MU
         ("diff --git a/x b/x" ++ PyStr.nl)).
Proof.
  intros w.
  refine (proj1 (dirty_submodule_is_skipped Sim.host (Sim.setup false None [Sim.MU])
                   Sim.MU 0 w w ("diff --git a/x b/x" ++ PyStr.nl)
                   eq_refl eq_refl eq_refl _)).
  discriminate.
Defined.

Example dirty_run_returns_zero :
  let run := Go Sim.host (Sim.setup false None [Sim.MU])
               {| Sim.git_says := "git version 2.30.0"; Sim.failing := [];
                  Sim.crashing := []; Sim.present := ["/ws/Common/MU"];
                  Sim.dirty := ["Common/MU"] |} in
  fst (fst run) = Returned 0 /\ filter (cmd_at Fetch) (snd run) = [].
Proof. split; reflexivity. Qed.

(** ** Exceptions inside the loop *)

Lemma iteration_never_RuntimeError {W : Type} (h : Host W) (cfg : config)
    sm r (w : W) o w' t :
  iteration h cfg sm r w = (o, w', t) ->
  (o = Returned r \/ o = Returned (-1))
  \/ (exists e, o = Raised e /\ forall msg, e <> RuntimeError msg).
Proof.
  unfold iteration. intros H.
  apply try_inv in H
    as [(a & H1 & ->)|[(msg & w1 & t1 & t2 & H1 & H2 & ->)|(e & H1 & -> & Hne)]].
  - apply bind_inv in H1 as [(u & w1 & t1 & t2 & _ & H2 & _)|(e & _ & [=])].
    inversion H2; subst. auto.
  - run_in H2. inversion H2; subst. auto.
  - right. eauto.
Qed.

Lemma fetch_loop_never_RuntimeError {W : Type} (h : Host W) (cfg : config) l :
  forall r (w : W) o w' t,
    fetch_loop h cfg l r w = (o, w', t) ->
    (exists z, o = Returned z /\ (z = r \/ z = -1))
    \/ (exists e, o = Raised e /\ forall msg, e <> RuntimeError msg).
Proof.
  induction l as [|sm l IH]; simpl; intros r w o w' t H.
  - inversion H; subst. left. eauto.
  - apply bind_inv in H as [(a & w1 & t1 & t2 & H1 & H2 & ->)|(e & H1 & ->)].
    + apply iteration_never_RuntimeError in H1 as [[H1|H1]|(e & H1 & _)];
        inversion H1; subst a.
      * eauto.
      * apply IH in H2 as [(z & -> & Hz)|Hr]; [|auto].
        left. exists z. split; auto. destruct Hz; auto.
    + apply iteration_never_RuntimeError in H1 as [[H1|H1]|(e' & H1 & Hne)];
        inversion H1; subst. right. eauto.
Qed.

(** C7 (amended).  A [RuntimeError] raised while an entry is processed is
    caught by the handler of the loop: the three error lines are logged, the
    result becomes -1 and the loop goes on with the following entries, so no
    [RuntimeError] ever leaves the loop and the result stays -1.  The handler
    names [RuntimeError] only: an exception of another class is not caught; it
    ends the loop at that entry and leaves it. *)
Theorem loop_catches_RuntimeError {W : Type} (h : Host W) (cfg : config)
    (sm : RequiredSubmodule) (rest : list RequiredSubmodule) (r : Z) (w : W) :
  (forall msg wb tb,
      fetch_body h cfg sm w = (Raised (RuntimeError msg), wb, tb) ->
      iteration h cfg sm r w = (Returned (-1), wb, (tb ++ failure_logs msg)%list)
      /\ fetch_loop h cfg (sm :: rest) r w =
           (let '(o, w', t) := fetch_loop h cfg rest (-1) wb in
            (o, w', ((tb ++ failure_logs msg) ++ t)%list))
      /\ (forall z w' t, fetch_loop h cfg (sm :: rest) r w = (Returned z, w', t) ->
                         z = -1))
  /\ (forall o w' t msg,
         fetch_loop h cfg (sm :: rest) r w = (o, w', t) ->
         o <> Raised (RuntimeError msg))
  /\ (forall e wb tb,
         fetch_body h cfg sm w = (Raised e, wb, tb) ->
         (forall msg, e <> RuntimeError msg) ->
         fetch_loop h cfg (sm :: rest) r w = (Raised e, wb, tb)).
Proof.
  split; [|split].
  - intros msg wb tb Hb.
    assert (Hi : iteration h cfg sm r w
                 = (Returned (-1), wb, (tb ++ failure_logs msg)%list)).
    { unfold iteration, try_except_RuntimeError.
      rewrite (bind_raised _ _ _ _ _ _ Hb). reflexivity. }
    split; [exact Hi|]. split.
    + cbn [fetch_loop]. unfold bind at 1. rewrite Hi.
      destruct (fetch_loop h cfg rest (-1) wb) as [[o w'] t]. reflexivity.
    + intros z w' t H. cbn [fetch_loop] in H. unfold bind at 1 in H.
      rewrite Hi in H.
      destruct (fetch_loop h cfg rest (-1) wb) as [[o2 w2] t2] eqn:E.
      inversion H; subst.
      apply fetch_loop_never_RuntimeError in E as [(z' & [= <-] & Hz)|(e & [=] & _)].
      destruct Hz; auto.
  - intros o w' t msg H ->.
    apply fetch_loop_never_RuntimeError in H as [(z & [=] & _)|(e & [= <-] & Hne)].
    exact (Hne msg eq_refl).
  - intros e wb tb Hb Hne. cbn [fetch_loop]. apply bind_raised.
    unfold iteration, try_except_RuntimeError.
    rewrite (bind_raised _ _ _ _ _ _ Hb).
    destruct e; [exfalso; exact (Hne _ eq_refl)|reflexivity|reflexivity].
Qed.

(** A failing update of the first entry: the handler logs, the result is
    -1. *)
Lemma loop_catches_RuntimeError_witness :
  let cfg := Sim.setup false None [Sim.MU; Sim.TEST] in
  let w := {| Sim.git_says := "git version 2.30.0";
              Sim.failing :=
                [("submodule update --init --recursive --progress Common/MU",
                  Some "/ws")];
              Sim.crashing := []; Sim.present := []; Sim.dirty := [] |} in
  fst (fst (iteration Sim.host cfg Sim.MU 0 w)) = Returned (-1).
Proof.
  intros cfg w.
  rewrite (proj1 (proj1 (loop_catches_RuntimeError Sim.host cfg Sim.MU [Sim.TEST] 0 w)
                    "Unable to checkout repo due to error" w _ eq_refl)).
  reflexivity.
Defined.

(** C7 as stated fails: an exception that is not a [RuntimeError], here one
    raised by the process layer during the dirty check of the first entry, is
    not caught; it leaves the loop and [Go], and the second entry is never
    looked at. *)
Lemma other_exception_leaves_the_loop :
  let cfg := Sim.setup false None [Sim.MU; Sim.TEST] in
  let w := {| Sim.git_says := "git version 2.30.0"; Sim.failing := [];
              Sim.crashing := [("diff Common/MU", Some "/ws")];
              Sim.present := ["/ws/Common/MU"]; Sim.dirty := [] |} in
  let boom := OtherException "UnicodeDecodeError" "invalid start byte" in
  fst (fst (Go Sim.host cfg w)) = Raised boom
  /\ In (diff_event cfg Sim.MU (Crashed boom)) (snd (Go Sim.host cfg w))
  /\ ~ In (checking Sim.TEST) (snd (Go Sim.host cfg w)).
Proof.
  split; [reflexivity|]. split.
  - vm_compute. intuition.
  - vm_compute. intuition discriminate.
Qed.

(** ** The version check *)

(** The first three dot-separated components of a field, as numbers. *)
Definition triple_of (field : string) : option (N * N * N) :=
  match firstn 3 (PyStr.split "." field) with
  | [fa; fb; fc] =>
      match PyStr.parse_decimal fa, PyStr.parse_decimal fb, PyStr.parse_decimal fc with
      | Some a, Some b, Some c => Some (a, b, c)
      | _, _, _ => None
      end
  | _ => None
  end.

(** The lexicographic order on triples of numbers. *)
Definition lex_lt (x y : N * N * N) : bool :=
  let '(a, b, c) := x in
  let '(a', b', c') := y in
  ((a <? a') || ((a =? a') && ((b <? b') || ((b =? b') && (c <? c')))))%N.

(** What the description asks of [version_compare]: on a version of three
    decimal components, comparing the minimum with it is positive exactly
    when the version is below (2, 11, 0). *)
Definition semantic_contract {W : Type} (h : Host W) : Prop :=
  forall fa fb fc a b c,
    PyStr.parse_decimal fa = Some a ->
    PyStr.parse_decimal fb = Some b ->
    PyStr.parse_decimal fc = Some c ->
    exists z,
      version_compare h min_git (fa ++ "." ++ fb ++ "." ++ fc) = Returned z
      /\ (z > 0 <-> lex_lt (a, b, c) (2, 11, 0)%N = true).

Fixpoint string_forall (P : ascii -> bool) (s : string) : bool :=
  match s with
  | EmptyString => true
  | String c r => P c && string_forall P r
  end.

Lemma digits_value_forall s : forall acc n,
  PyStr.digits_value acc s = Some n -> string_forall PyStr.is_digit s = true.
Proof.
  induction s as [|c s IH]; simpl; intros acc n H; [reflexivity|].
  destruct (PyStr.is_digit c); [|discriminate]. simpl. eauto.
Qed.

Lemma parse_decimal_digits s n :
  PyStr.parse_decimal s = Some n -> string_forall PyStr.is_digit s = true.
Proof.
  destruct s; [discriminate|]. unfold PyStr.parse_decimal.
  apply digits_value_forall.
Qed.

Lemma digit_is_not_dot c : PyStr.is_digit c = true -> Ascii.eqb c "." = false.
Proof.
  intros H. destruct (Ascii.eqb_spec c "."); [|reflexivity].
  subst c. discriminate H.
Qed.

Lemma split_digits_alone s :
  string_forall PyStr.is_digit s = true -> PyStr.split "." s = [s].
Proof.
  induction s as [|c s IH]; simpl; [reflexivity|].
  intros H. apply andb_prop in H as [Hc Hs].
  rewrite (digit_is_not_dot c Hc), (IH Hs). reflexivity.
Qed.

Lemma split_digits_dot s rest :
  string_forall PyStr.is_digit s = true ->
  PyStr.split "." (s ++ "." ++ rest) = s :: PyStr.split "." rest.
Proof.
  induction s as [|c s IH]; simpl; [reflexivity|].
  intros H. apply andb_prop in H as [Hc Hs].
  rewrite (digit_is_not_dot c Hc). simpl in IH. rewrite (IH Hs). reflexivity.
Qed.

(** The model of [version_compare] meets the contract. *)
Lemma Sim_contract : semantic_contract Sim.host.
Proof.
  intros fa fb fc a b c Ha Hb Hc.
  change (version_compare Sim.host) with Sim.version_compare_model.
  unfold Sim.version_compare_model.
  rewrite (split_digits_dot fa _ (parse_decimal_digits _ _ Ha)).
  rewrite (split_digits_dot fb _ (parse_decimal_digits _ _ Hb)).
  rewrite (split_digits_alone fc (parse_decimal_digits _ _ Hc)).
  change (Sim.components (PyStr.split "." min_git)) with (Some [2; 11; 0]%N).
  cbn [Sim.components]. rewrite Ha, Hb, Hc.
  eexists. split; [reflexivity|].
  unfold lex_lt. cbn [Sim.compare_lists].
  destruct (N.compare_spec 2 a) as [E|E|E];
    [subst a; destruct (N.compare_spec 11 b) as [E|E|E];
       [subst b; destruct (N.compare_spec 0 c) as [E|E|E]|..]|..];
    repeat match goal with
           | |- context [(?x <? ?y)%N] => destruct (N.ltb_spec x y)
           | |- context [(?x =? ?y)%N] => destruct (N.eqb_spec x y)
           end; cbn [orb andb]; split; intros; try lia; try discriminate; auto.
Qed.

(** C2 (amended).  Let the reported version string, stripped, have the
    fields [f0 f1 field ...] when cut at single spaces, and let [field] start
    with three dot-separated decimal components a.b.c.  Then the run stops at
    the version check, with the [RuntimeError] of line 123, exactly when
    (a, b, c) is below (2, 11, 0) in the lexicographic order on numbers; when
    it stops, the version query is the only command that was issued, and
    otherwise the check is passed and the run goes on. *)
Theorem version_check_is_numeric {W : Type} (h : Host W) (cfg : config)
    (w w1 : W) (out field fa fb fc : string) (a b c : N) :
  semantic_contract h ->
  spawn h w "git" "--version" None = (Exited 0 out, w1) ->
  nth_error (PyStr.split " " (PyStr.strip out)) 2 = Some field ->
  firstn 3 (PyStr.split "." field) = [fa; fb; fc] ->
  PyStr.parse_decimal fa = Some a ->
  PyStr.parse_decimal fb = Some b ->
  PyStr.parse_decimal fc = Some c ->
  (lex_lt (a, b, c) (2, 11, 0)%N = true ->
     Go h cfg w =
       (Raised (RuntimeError (upgrade_message (fa ++ "." ++ fb ++ "." ++ fc))),
        w1, version_events out))
  /\ (lex_lt (a, b, c) (2, 11, 0)%N = false ->
        version_check h w = (Returned tt, w1, version_events out)
        /\ Go h cfg w =
             (let '(o, w2, t2) := after_version_check h cfg w1 in
              (o, w2, (version_events out ++ t2)%list))).
Proof.
  intros Hcon Hs Hn Hf Ha Hb Hc.
  destruct (Hcon fa fb fc a b c Ha Hb Hc) as (z & Hz & Hiff).
  assert (Ecur : cur_git_of field = fa ++ "." ++ fb ++ "." ++ fc).
  { unfold cur_git_of. rewrite Hf. reflexivity. }
  pose proof (version_check_run h w out w1 Hs) as Hv.
  rewrite Hn, Ecur, Hz in Hv. split; intros Hlt.
  - apply Hiff in Hlt. apply Z.gt_lt, Z.ltb_lt in Hlt.
    rewrite Z.gtb_ltb, Hlt in Hv. unfold Go. apply bind_raised. exact Hv.
  - assert (Hz' : (z >? 0) = false).
    { rewrite Z.gtb_ltb. apply Z.ltb_ge.
      destruct (Z_gt_le_dec z 0) as [Hg|Hl]; [|lia].
      apply Hiff in Hg. congruence. }
    rewrite Hz' in Hv. split; [exact Hv|].
    exact (Go_passed h cfg w tt w1 _ Hv).
Qed.

(** git 2.9.9 stops the run; 2.11.0 and 2.11.1 pass the check. *)
Lemma version_check_is_numeric_witness :
  fst (fst (Go Sim.host (Sim.setup true None [Sim.MU]) (Sim.quiet "git version 2.9.9")))
    = Raised (RuntimeError
                "Please upgrade Git! Current version is 2.9.9. Minimum is 2.11.0.")
  /\ version_check Sim.host (Sim.quiet "git version 2.11.0")
     = (Returned tt, Sim.quiet "git version 2.11.0", version_events "git version 2.11.0")
  /\ version_check Sim.host (Sim.quiet "git version 2.11.1")
     = (Returned tt, Sim.quiet "git version 2.11.1", version_events "git version 2.11.1").
Proof.
  split; [|split].
  - rewrite (proj1 (version_check_is_numeric Sim.host (Sim.setup true None [Sim.MU])
                      (Sim.quiet "git version 2.9.9") _ "git version 2.9.9"
                      "2.9.9" "2" "9" "9" 2 9 9 Sim_contract
                      eq_refl eq_refl eq_refl eq_refl eq_refl eq_refl) eq_refl).
    reflexivity.
  - exact (proj1 (proj2 (version_check_is_numeric Sim.host (Sim.setup true None [Sim.MU])
                      (Sim.quiet "git version 2.11.0") _ "git version 2.11.0"
                      "2.11.0" "2" "11" "0" 2 11 0 Sim_contract
                      eq_refl eq_refl eq_refl eq_refl eq_refl eq_refl) eq_refl)).
  - exact (proj1 (proj2 (version_check_is_numeric Sim.host (Sim.setup true None [Sim.MU])
                      (Sim.quiet "git version 2.11.1") _ "git version 2.11.1"
                      "2.11.1" "2" "11" "1" 2 11 1 Sim_contract
                      eq_refl eq_refl eq_refl eq_refl eq_refl eq_refl) eq_refl)).
Defined.

(** C2 as stated fails: the code cuts the version string at single spaces,
    not at white space.  In "git<TAB>version<TAB>2.30.0" the third
    whitespace-separated word is 2.30.0, which is not below 2.11.0, and yet
    the run stops at the version check: there is no third field and the
    indexing of line 121 raises [IndexError]. *)
Lemma tab_separated_version_stops_the_run :
  let out := "git" ++ PyStr.tab ++ "version" ++ PyStr.tab ++ "2.30.0" in
  nth_error (PyStr.split_whitespace (PyStr.strip out)) 2 = Some "2.30.0"
  /\ triple_of "2.30.0" = Some (2, 30, 0)%N
  /\ lex_lt (2, 30, 0)%N (2, 11, 0)%N = false
  /\ semantic_contract Sim.host
  /\ Go Sim.host (Sim.setup false None [Sim.MU]) (Sim.quiet out)
     = (Raised (IndexError "list index out of range"), Sim.quiet out,
        version_events out).
Proof.
  repeat split; try reflexivity. apply Sim_contract.
Qed.

(** ** The shape of a run *)

Fixpoint starts_with (p s : string) : bool :=
  match p, s with
  | EmptyString, _ => true
  | String a p', String b s' => Ascii.eqb a b && starts_with p' s'
  | String _ _, EmptyString => false
  end.

(** The progress line that opens a turn of the loop (line 181). *)
Definition is_checking (e : event) : bool :=
  match e with
  | Log PROGRESS m => starts_with "## Checking Git repository: " m
  | _ => false
  end.

(** An event of the stages before the loop. *)
Definition before_loop (e : event) : Prop :=
  cmd_at Fetch e = false /\ cmd_at Diff e = false /\ is_checking e = false.

(** A reset or clean command of the force-clean stage. *)
Definition cleaning (e : event) : bool :=
  cmd_at RootReset e || cmd_at RootClean e || cmd_at SubReset e || cmd_at SubClean e.



(** The number of turns begun in a trace. *)
Definition turns_begun (t : list event) : nat := length (filter is_checking t).

Section Shape.

Context {W : Type} (h : Host W) (cfg : config).




Lemma version_check_before_loop :
  emits (fun e => before_loop e /\ cleaning e = false) (version_check h).
Proof.
  unfold version_check, ReportVersion, index.
  emitting; cbv; auto.
Qed.

Lemma clean_stage_before_loop : emits before_loop (clean_stage h cfg).
Proof.
  unfold clean_stage, force_clean, log_progress, logging_error.
  rewrite for_each_guard.
  emitting; try (cbv; auto; fail).
  apply emits_for_each. intros sm Hin.
  unfold clean_submodule, log_progress. emitting; cbv; auto.
Qed.

Lemma sync_stage_before_loop :
  emits (fun e => before_loop e /\ cleaning e = false) (sync_stage h cfg).
Proof.
  unfold sync_stage, sync_step, log_progress, logging_error.
  emitting; cbv; auto.
Qed.


End Shape.

Section Decomposition.

Context {W : Type} (h : Host W) (cfg : config).

(** How far a run gets after the version check. *)
Lemma after_version_check_shape (w1 w' : W) o t :
  after_version_check h cfg w1 = (o, w', t) ->
  (exists oc, clean_stage h cfg w1 = (oc, w', t) /\ oc <> Returned None)
  \/ (exists w2 tc,
         clean_stage h cfg w1 = (Returned None, w2, tc)
         /\ ((required_submodules cfg = [] /\ t = tc /\ o = Returned 0)
             \/ (exists os ts, sync_stage h cfg w2 = (os, w', ts)
                               /\ os <> Returned None /\ t = (tc ++ ts)%list)
             \/ (exists w3 ts tl,
                    sync_stage h cfg w2 = (Returned None, w3, ts)
                    /\ fetch_loop h cfg (required_submodules cfg) 0 w3 = (o, w', tl)
                    /\ t = (tc ++ ts ++ tl)%list))).
Proof.
  unfold after_version_check. intros H.
  apply bind_inv in H as [(a & w2 & tc & t2 & Hc & H2 & ->)|(e & Hc & ->)].
  2:{ left. eexists. split; [exact Hc|discriminate]. }
  destruct a as [code|].
  { inversion H2; subst. rewrite app_nil_r. left. eexists. split; [exact Hc|discriminate]. }
  right. exists w2, tc. split; [exact Hc|].
  destruct (required_submodules cfg) as [|sm l] eqn:El.
  { inversion H2; subst. rewrite app_nil_r. auto. }
  right.
  apply bind_inv in H2 as [(a & w3 & ts & t3 & Hs & H3 & ->)|(e & Hs & ->)].
  2:{ left. do 2 eexists. split; [exact Hs|]. split; [discriminate|reflexivity]. }
  destruct a as [code|].
  { inversion H3; subst. rewrite app_nil_r. left. do 2 eexists.
    split; [exact Hs|]. split; [discriminate|reflexivity]. }
  right. exists w3, ts, t3. auto.
Qed.

Lemma RunCmd_returned s c p d (w w' : W) rv t :
  RunCmd h s c p d true w = (Returned rv, w', t) ->
  exists out, t = [Cmd s c p d (Exited 0 out)].
Proof.
  intros H. apply RunCmd_inv in H as (resp & _ & -> & Ho).
  destruct resp as [rc out|e]; [|discriminate].
  destruct (rc =? 0) eqn:E; simpl in Ho; [|discriminate].
  apply Z.eqb_eq in E. subst. eauto.
Qed.




End Decomposition.

(** ** Lists of events *)

Lemma filter_none {A} (f : A -> bool) (l : list A) :
  Forall (fun x => f x = false) l -> filter f l = [].
Proof.
  induction 1 as [|x l Hx _ IH]; simpl; [reflexivity|]. now rewrite Hx.
Qed.


(** An element with [P] in a list that begins with elements without [P]
    lies after them. *)
Lemma split_after_prefix {A} (P : A -> bool) (X Y t1 t2 : list A) (e : A) :
  (X ++ Y = t1 ++ e :: t2)%list ->
  Forall (fun x => P x = false) X -> P e = true ->
  exists r1, t1 = (X ++ r1)%list /\ Y = (r1 ++ e :: t2)%list.
Proof.
  revert t1. induction X as [|x X IH]; simpl; intros t1 H HX He.
  - exists t1. auto.
  - inversion HX as [|? ? Hx HX']; subst.
    destruct t1 as [|y t1]; simpl in H; inversion H; subst.
    + congruence.
    + destruct (IH t1 H2 HX' He) as (r1 & -> & ->). exists r1. auto.
Qed.



(** ** Forced runs *)



(** A forced run whose root reset fails returns -1 without updating the
    required submodule. *)
Example forced_run_can_fetch_nothing :
  let cfg := Sim.setup true None [Sim.MU] in
  let run := Go Sim.host cfg
               {| Sim.git_says := "git version 2.30.0";
                  Sim.failing := [("reset --hard", Some "/ws")];
                  Sim.crashing := []; Sim.present := []; Sim.dirty := [] |} in
  force_it cfg = true
  /\ required_submodules cfg = [Sim.MU]
  /\ fst (fst run) = Returned (-1)
  /\ filter (cmd_at Fetch) (snd run) = [].
Proof. repeat split. Qed.

(** ** The turns of the loop in the trace *)



Section Segments.

Context {W : Type} (h : Host W) (cfg : config).

Lemma checking_is_checking sm : is_checking (checking sm) = true.
Proof. reflexivity. Qed.








End Segments.

(** ** A failed update does not stop the loop *)

Lemma turns_begun_app (t1 t2 : list event) :
  turns_begun (t1 ++ t2)%list = (turns_begun t1 + turns_begun t2)%nat.
Proof. unfold turns_begun. now rewrite filter_app, length_app. Qed.




(** ** What can come out of a run *)

(** A guarded stage hands on [None], returns the code of its handler, or
    lets through an exception that is no [RuntimeError]. *)
Lemma guarded_outcome {W : Type} (m : M W unit) (code : Z) (text : string)
    (w w' : W) o t :
  try_except_RuntimeError
    (m ;;; ret None)
    (fun msg =>
       logging_error ("FAILED!" ++ PyStr.nl) ;;;
       logging_error text ;;;
       logging_error msg ;;;
       ret (Some code)) w = (o, w', t) ->
  o = Returned None \/ o = Returned (Some code)
  \/ (exists e, o = Raised e /\ forall msg, e <> RuntimeError msg).
Proof.
  intros H. apply try_inv in H
    as [(a & H1 & ->)|[(msg & w1 & t1 & t2 & H1 & H2 & ->)|(e & H1 & -> & Hne)]].
  - apply bind_inv in H1 as [(u & w1 & t1 & t2 & _ & H2 & _)|(e & _ & [=])].
    inversion H2; subst. auto.
  - run_in H2. inversion H2; subst. auto.
  - right. right. eauto.
Qed.

Lemma clean_stage_outcome {W : Type} (h : Host W) (cfg : config) (w w' : W) o t :
  clean_stage h cfg w = (o, w', t) ->
  o = Returned None \/ o = Returned (Some (-1))
  \/ (exists e, o = Raised e /\ forall msg, e <> RuntimeError msg).
Proof.
  unfold clean_stage. destruct (force_it cfg).
  - apply guarded_outcome.
  - intros H. inversion H; subst. auto.
Qed.

(** X3.  [Go] returns 0 or -1 and no other number.  A [RuntimeError] can leave
    [Go] only from the version check (a failing version query or a git that
    is too old): once the check is passed, every [RuntimeError] is handled and
    turned into -1. *)
Theorem Go_outcomes {W : Type} (h : Host W) (cfg : config) (w w' : W)
    (o : outcome Z) (t : list event) :
  Go h cfg w = (o, w', t) ->
  (forall z, o = Returned z -> z = 0 \/ z = -1)
  /\ (forall msg, o = Raised (RuntimeError msg) ->
        version_check h w = (Raised (RuntimeError msg), w', t)).
Proof.
  intros H.
  destruct (version_check h w) as [[[u|ex] w1] tv] eqn:Hv.
  2:{ unfold Go in H. rewrite (bind_raised _ _ _ _ _ _ Hv) in H.
      inversion H; subst. split; [discriminate|]. intros msg [= ->]. reflexivity. }
  destruct (Go_passed_inv h cfg w _ _ _ _ _ _ Hv H) as (ta & Ha & Hta).
  assert (Hgoal : (exists z, o = Returned z /\ (z = 0 \/ z = -1))
                  \/ (exists e, o = Raised e /\ forall msg, e <> RuntimeError msg)).
  { unfold after_version_check in Ha.
    apply bind_inv in Ha as [(a & w2 & tc & t2 & Hc & H2 & _)|(e & Hc & ->)].
    2:{ apply clean_stage_outcome in Hc as [Hc|[Hc|(e' & [= <-] & Hne)]];
          try discriminate. right. eauto. }
    destruct a as [code|].
    { apply clean_stage_outcome in Hc as [Hc|[[= <-]|(e' & [=] & _)]];
        try discriminate. inversion H2; subst. left. eauto. }
    destruct (required_submodules cfg) as [|sm l].
    { inversion H2; subst. left. eauto. }
    apply bind_inv in H2 as [(a & w3 & ts & t3 & Hs & H3 & _)|(e & Hs & ->)].
    2:{ apply guarded_outcome in Hs as [Hs|[Hs|(e' & [= <-] & Hne)]];
          try discriminate. right. eauto. }
    destruct a as [code|].
    { apply guarded_outcome in Hs as [Hs|[[= <-]|(e' & [=] & _)]];
        try discriminate. inversion H3; subst. left. eauto. }
    apply fetch_loop_never_RuntimeError in H3 as [(z & -> & Hz)|Hr]; [|auto].
    left. exists z. split; auto. }
  split.
  - intros z ->. destruct Hgoal as [(z' & [= <-] & Hz)|(e & [=] & _)]. exact Hz.
  - intros msg ->. exfalso.
    destruct Hgoal as [(z' & [=] & _)|(e & [= <-] & Hne)]. exact (Hne msg eq_refl).
Qed.

(** A forced run whose submodule clean fails returns -1, one of the two
    codes. *)
Lemma Go_outcomes_witness :
  fst (fst (Go Sim.host (Sim.setup true None [Sim.MU])
              {| Sim.git_says := "git version 2.30.0";
                 Sim.failing := [("clean -xffd", Some "/ws/Common/MU")];
                 Sim.crashing := []; Sim.present := []; Sim.dirty := [] |}))
    = Returned (-1)
  /\ ((-1) = 0 \/ (-1) = -1).
Proof.
  split; [reflexivity|].
  exact (proj1 (Go_outcomes Sim.host (Sim.setup true None [Sim.MU])
                  {| Sim.git_says := "git version 2.30.0";
                     Sim.failing := [("clean -xffd", Some "/ws/Common/MU")];
                     Sim.crashing := []; Sim.present := []; Sim.dirty := [] |}
                  _ _ _ eq_refl) (-1) eq_refl).
Defined.



(** ** The decision to update *)

(** X5.  Whether a turn issues the update command (lines 185-213).  With [force]
    set, or when the resolved path does not exist, no diff is run and the
    update is the first command of the turn.  With [force] unset and the path
    present, once the diff has exited with code 0 the update is issued exactly
    when the diff printed nothing but white space. *)
Theorem update_is_issued_unless_dirty {W : Type} (h : Host W) (cfg : config)
    (sm : RequiredSubmodule) (r : Z) (w : W) :
  (force_it cfg = true \/ path_exists h w (resolve h cfg sm) = false ->
   exists resp rest,
     snd (iteration h cfg sm r w)
       = checking sm :: Log INFO "## Fetching repo."
           :: fetch_event cfg sm resp :: rest)
  /\ (forall out w1,
        force_it cfg = false ->
        path_exists h w (resolve h cfg sm) = true ->
        spawn h w "git" ("diff " ++ path sm) (Some (workspace_path cfg))
          = (Exited 0 out, w1) ->
        ((exists resp, In (fetch_event cfg sm resp) (snd (iteration h cfg sm r w)))
         <-> PyStr.strip out = "")).
Proof.
  rewrite iteration_run. unfold turn_of. split.
  - intros Hg.
    assert (Eg : path_exists h w (resolve h cfg sm) && negb (force_it cfg) = false).
    { destruct Hg as [-> | ->]; [apply andb_false_r|reflexivity]. }
    rewrite Eg. unfold fetch_turn, handled.
    destruct (spawn h w "git" (cmd_string cfg sm) (Some (workspace_path cfg)))
      as [[rc out|e] w2].
    + destruct (rc =? 0); do 2 eexists; reflexivity.
    + destruct e; do 2 eexists; reflexivity.
  - intros out w1 Hf He Hs. rewrite He, Hf, Hs. cbn [andb negb Z.eqb].
    destruct (String.eqb_spec (PyStr.strip out) "") as [Es|Es].
    + split; [auto|]. intros _. unfold fetch_turn, handled.
      destruct (spawn h w1 "git" (cmd_string cfg sm) (Some (workspace_path cfg)))
        as [[rc2 out2|e] w2].
      * exists (Exited rc2 out2). destruct (rc2 =? 0); cbn; auto.
      * exists (Crashed e). destruct e; cbn; auto.
    + split; [|contradiction]. intros (resp & Hin). exfalso.
      cbn in Hin. unfold checking, diff_event, fetch_event, done_event in Hin.
      repeat (destruct Hin as [Hin|Hin]; [discriminate Hin|]). exact Hin.
Qed.

(** A path that does not exist is updated without a diff; a path whose
    diff prints a line feed only is updated too. *)
Lemma update_is_issued_unless_dirty_witness :
  (exists resp rest,
     snd (iteration Sim.host (Sim.setup false None [Sim.MU]) Sim.MU 0
            (Sim.quiet "git version 2.30.0"))
       = checking Sim.MU :: Log INFO "## Fetching repo."
           :: fetch_event (Sim.setup false None [Sim.MU]) Sim.MU resp :: rest).
Proof.
  exact (proj1 (update_is_issued_unless_dirty Sim.host (Sim.setup false None [Sim.MU])
                  Sim.MU 0 (Sim.quiet "git version 2.30.0"))
           (or_intror eq_refl)).
Defined.

(** ** The command-line options *)


(** ** The version that is compared *)

Definition dot_free (s : string) : bool :=
  string_forall (fun c => negb (Ascii.eqb c ".")) s.

Lemma split_dot_free_alone s : dot_free s = true -> PyStr.split "." s = [s].
Proof.
  unfold dot_free. induction s as [|c s IH]; simpl; [reflexivity|].
  intros H. apply andb_prop in H as [Hc Hs]. apply negb_true_iff in Hc.
  rewrite Hc, (IH Hs). reflexivity.
Qed.

Lemma split_dot_free_dot s rest :
  dot_free s = true ->
  PyStr.split "." (s ++ "." ++ rest) = s :: PyStr.split "." rest.
Proof.
  unfold dot_free. induction s as [|c s IH]; simpl; [reflexivity|].
  intros H. apply andb_prop in H as [Hc Hs]. apply negb_true_iff in Hc.
  rewrite Hc. simpl in IH. rewrite (IH Hs). reflexivity.
Qed.

(** X7.  The version handed to [version_compare] (line 121) is made of the first
    three dot-separated components of the field: whatever follows a third
    component is dropped ("2.30.0.windows.1" is compared as "2.30.0"), and a
    field of fewer components is compared as it is, without padding. *)
Theorem cur_git_keeps_three_components (fa fb fc rest : string) :
  dot_free fa = true -> dot_free fb = true -> dot_free fc = true ->
  cur_git_of (fa ++ "." ++ fb ++ "." ++ fc ++ "." ++ rest) = fa ++ "." ++ fb ++ "." ++ fc
  /\ cur_git_of (fa ++ "." ++ fb ++ "." ++ fc) = fa ++ "." ++ fb ++ "." ++ fc
  /\ cur_git_of (fa ++ "." ++ fb) = fa ++ "." ++ fb
  /\ cur_git_of fa = fa.
Proof.
  intros Ha Hb Hc. unfold cur_git_of. repeat split.
  - rewrite (split_dot_free_dot fa _ Ha), (split_dot_free_dot fb _ Hb),
      (split_dot_free_dot fc _ Hc). reflexivity.
  - rewrite (split_dot_free_dot fa _ Ha), (split_dot_free_dot fb _ Hb),
      (split_dot_free_alone fc Hc). reflexivity.
  - rewrite (split_dot_free_dot fa _ Ha), (split_dot_free_alone fb Hb). reflexivity.
  - rewrite (split_dot_free_alone fa Ha). reflexivity.
Qed.

Lemma cur_git_keeps_three_components_witness :
  cur_git_of "2.30.0.windows.1" = "2.30.0".
Proof.
  exact (proj1 (cur_git_keeps_three_components "2" "30" "0" "windows.1"
                  eq_refl eq_refl eq_refl)).
Defined.

(** ** The sites of each stage *)

(** The commands of the event, if it is one, is issued at one of [S]. *)
Definition only_sites (S : list site) (e : event) : Prop :=
  match e with
  | Cmd s _ _ _ _ => existsb (site_eqb s) S = true
  | _ => True
  end.

Lemma only_sites_elsewhere (S : list site) (x : site) (e : event) :
  only_sites S e -> existsb (site_eqb x) S = false -> cmd_at x e = false.
Proof.
  destruct e as [s c p d r|l m|n v ty]; simpl; auto.
  intros Hs Hx. destruct (site_eqb x s) eqn:E; [|reflexivity].
  assert (x = s) by (destruct x, s; try discriminate; reflexivity). subst.
  congruence.
Qed.

Section Sites.

Context {W : Type} (h : Host W) (cfg : config).

Lemma version_check_sites : emits (only_sites [VersionQuery]) (version_check h).
Proof.
  unfold version_check, ReportVersion, index. emitting; cbn; auto.
Qed.

Lemma clean_stage_sites :
  emits (only_sites [RootReset; RootClean; SubReset; SubClean]) (clean_stage h cfg).
Proof.
  unfold clean_stage, force_clean, log_progress, logging_error.
  rewrite for_each_guard.
  emitting; try (cbn; auto; fail).
  apply emits_for_each. intros sm Hin.
  unfold clean_submodule, log_progress. emitting; cbn; auto.
Qed.

Lemma sync_stage_sites : emits (only_sites [Sync]) (sync_stage h cfg).
Proof.
  unfold sync_stage, sync_step, log_progress, logging_error.
  emitting; cbn; auto.
Qed.

Lemma fetch_loop_sites l : forall r,
  emits (only_sites [Diff; Fetch]) (fetch_loop h cfg l r).
Proof.
  induction l as [|sm l IH]; simpl; intros r; [apply emits_ret|].
  apply emits_bind; [|intros ?; apply IH].
  unfold iteration, fetch_body, skip_decision, fetch_step, log_progress,
    logging_info, logging_error.
  emitting; cbn; auto.
Qed.

End Sites.

Lemma sites_elsewhere (S : list site) (x : site) (t : list event) :
  Forall (only_sites S) t -> existsb (site_eqb x) S = false ->
  Forall (fun e => cmd_at x e = false) t.
Proof.
  intros H Hx. eapply Forall_impl; [|exact H].
  intros e He. exact (only_sites_elsewhere S x e He Hx).
Qed.

(** ** A fatal failure ends the run *)





Section Halting.

Context {W : Type} (h : Host W).









End Halting.


Section FatalStages.

Context {W : Type} (h : Host W) (cfg : config).






End FatalStages.



(** ** The result and the log *)

Definition is_error (e : event) : bool :=
  match e with
  | Log ERROR _ => true
  | _ => false
  end.

(** An event of a run that goes well: no failed command, no error line. *)
Definition quiet_event (e : event) : Prop := cmd_ok e = true /\ is_error e = false.

Definition FAILED_line : event := Log ERROR ("FAILED!" ++ PyStr.nl).

Section Calm.

Context {W : Type} (h : Host W) (cfg : config).

(** A computation is calm when a run of it that returns has produced quiet
    events only. *)
Definition calm {A} (m : M W A) : Prop :=
  forall w a w' t, m w = (Returned a, w', t) -> Forall quiet_event t.

Lemma calm_ret {A} (a : A) : calm (ret a : M W A).
Proof. intros w b w' t H. inversion H. constructor. Qed.

Lemma calm_emit e : quiet_event e -> calm (emit e : M W unit).
Proof. intros He w b w' t H. inversion H. repeat constructor; apply He. Qed.

Lemma calm_RunCmd s c p d : calm (RunCmd h s c p d true).
Proof.
  intros w a w' t H. destruct (RunCmd_returned h _ _ _ _ _ _ _ _ H) as (out & ->).
  repeat constructor.
Qed.

Lemma calm_bind {A B} (m : M W A) (f : A -> M W B) :
  calm m -> (forall a, calm (f a)) -> calm (bind m f).
Proof.
  intros Hm Hf w b w' t H.
  apply bind_inv in H as [(a & w1 & t1 & t2 & H1 & H2 & ->)|(e & _ & [=])].
  apply Forall_app. split; [exact (Hm _ _ _ _ H1)|exact (Hf _ _ _ _ _ H2)].
Qed.

Lemma calm_for_each {A} (l : list A) (body : A -> M W unit) :
  (forall x, calm (body x)) -> calm (for_each l body).
Proof.
  intros Hb. induction l as [|x l IH]; simpl.
  - apply calm_ret.
  - apply calm_bind; auto.
Qed.

Lemma calm_version_check : calm (version_check h).
Proof.
  intros w a w' t H.
  apply version_check_returned in H as (out & field & c & _ & _ & _ & _ & ->).
  repeat constructor.
Qed.

Ltac calmly :=
  repeat match goal with
    | |- calm (bind _ _) => apply calm_bind; [|intros ?]
    | |- calm (RunCmd _ _ _ _ _ true) => apply calm_RunCmd
    | |- calm (emit (Log _ _)) => apply calm_emit; split; reflexivity
    | |- calm (ret _) => apply calm_ret
    | |- calm (for_each _ _) => apply calm_for_each; intros ?
    end.

Lemma calm_force_clean : calm (force_clean h cfg).
Proof.
  unfold force_clean, log_progress. rewrite for_each_guard. calmly.
  unfold clean_submodule, log_progress. calmly.
Qed.

Lemma calm_sync_step : calm (sync_step h cfg).
Proof. unfold sync_step, log_progress. calmly. Qed.

(** A guarded stage that returns was quiet and hands on, or has logged
    "FAILED!" and returns the code of its handler. *)
Lemma guarded_calm (m : M W unit) (code : Z) (text : string) (w w' : W) a t :
  calm m ->
  try_except_RuntimeError
    (m ;;; ret None)
    (fun msg =>
       logging_error ("FAILED!" ++ PyStr.nl) ;;;
       logging_error text ;;;
       logging_error msg ;;;
       ret (Some code)) w = (Returned a, w', t) ->
  (a = None /\ Forall quiet_event t) \/ (a = Some code /\ In FAILED_line t).
Proof.
  intros Hm H.
  apply try_inv in H
    as [(b & H1 & [= <-])|[(msg & w1 & ta & tb & _ & H2 & ->)|(ex & _ & [=] & _)]].
  - apply bind_inv in H1 as [(u & w1 & t1 & t2 & H1 & H2 & ->)|(e & _ & [=])].
    inversion H2; subst. rewrite app_nil_r. left. split; [reflexivity|].
    exact (Hm _ _ _ _ H1).
  - run_in H2. inversion H2; subst. right. split; [reflexivity|].
    apply in_or_app. right. left. reflexivity.
Qed.

Lemma clean_stage_calm (w w' : W) a t :
  clean_stage h cfg w = (Returned a, w', t) ->
  (a = None /\ Forall quiet_event t) \/ (a = Some (-1) /\ In FAILED_line t).
Proof.
  unfold clean_stage. destruct (force_it cfg).
  - apply guarded_calm, calm_force_clean.
  - intros H. inversion H. left. split; [reflexivity|constructor].
Qed.

Lemma turn_calm (sm : RequiredSubmodule) r (w w' : W) z t :
  turn_of h cfg sm r w = (Returned z, w', t) ->
  (z = r /\ Forall quiet_event t) \/ (z = -1 /\ In FAILED_line t).
Proof.
  unfold turn_of, fetch_turn, handled.
  assert (Hf : forall w0 pre,
             Forall quiet_event pre ->
             match spawn h w0 "git" (cmd_string cfg sm) (Some (workspace_path cfg)) with
             | (Exited rc out, w2) =>
                 if rc =? 0
                 then (Returned r, w2,
                       ((pre ++ [Log INFO "## Fetching repo.";
                                 fetch_event cfg sm (Exited rc out)]) ++ [done_event])%list)
                 else (Returned (-1), w2,
                       (((pre ++ [Log INFO "## Fetching repo.";
                                  fetch_event cfg sm (Exited rc out)])
                           ++ [Log ERROR ("Failed to fetch " ++ path sm)])
                          ++ failure_logs "Unable to checkout repo due to error")%list)
             | (Crashed e, w2) =>
                 match e with
                 | RuntimeError msg =>
                     (Returned (-1), w2,
                      ((pre ++ [Log INFO "## Fetching repo.";
                                fetch_event cfg sm (Crashed e)])
                         ++ failure_logs msg)%list)
                 | _ => (Raised e, w2,
                         (pre ++ [Log INFO "## Fetching repo.";
                                  fetch_event cfg sm (Crashed e)])%list)
                 end
             end = (Returned z, w', t) ->
             (z = r /\ Forall quiet_event t) \/ (z = -1 /\ In FAILED_line t)).
  { intros w0 pre Hpre.
    destruct (spawn h w0 "git" (cmd_string cfg sm) (Some (workspace_path cfg)))
      as [[rc out|e] w2].
    - destruct (rc =? 0) eqn:Erc; intros H; inversion H; subst.
      + left. split; [reflexivity|].
        repeat (apply Forall_app; split); auto; repeat constructor.
        simpl. exact Erc.
      + right. split; [reflexivity|]. apply in_or_app. right. left. reflexivity.
    - destruct e; intros H; inversion H; subst.
      right. split; [reflexivity|]. apply in_or_app. right. left. reflexivity. }
  destruct (path_exists h w (resolve h cfg sm) && negb (force_it cfg)).
  - destruct (spawn h w "git" ("diff " ++ path sm) (Some (workspace_path cfg)))
      as [[rc out|e] w1].
    + destruct (rc =? 0) eqn:Erc.
      * destruct (String.eqb (PyStr.strip out) "").
        -- apply Hf. repeat constructor. simpl. exact Erc.
        -- intros H; inversion H; subst. left. split; [reflexivity|].
           repeat constructor. simpl. exact Erc.
      * intros H; inversion H; subst. right. split; [reflexivity|].
        right. right. left. reflexivity.
    + destruct e; intros H; inversion H; subst.
      right. split; [reflexivity|]. right. right. left. reflexivity.
  - apply Hf. repeat constructor.
Qed.

Lemma fetch_loop_calm l : forall r (w w' : W) z t,
  fetch_loop h cfg l r w = (Returned z, w', t) ->
  (z = r /\ Forall quiet_event t) \/ (z = -1 /\ In FAILED_line t).
Proof.
  induction l as [|sm l IH]; simpl; intros r w w' z t H.
  - inversion H; subst. left. split; [reflexivity|constructor].
  - apply bind_inv in H as [(a & w1 & t1 & t2 & H1 & H2 & ->)|(e & _ & [=])].
    rewrite iteration_run in H1.
    apply turn_calm in H1 as [[-> Q1]|[-> F1]].
    + apply IH in H2 as [[-> Q2]|[-> F2]].
      * left. split; [reflexivity|]. apply Forall_app. auto.
      * right. split; [reflexivity|]. apply in_or_app. auto.
    + right. split; [|apply in_or_app; auto].
      apply fetch_loop_never_RuntimeError in H2 as [(z' & [= <-] & Hz)|(e & [=] & _)].
      destruct Hz; auto.
Qed.

End Calm.

(** X9.  The result of a run that returns can be read off its log.  When [Go]
    returns 0 no error line was logged and every command of the run exited
    with code 0; when it returns -1 the line "FAILED!" was logged. *)
Theorem result_matches_the_log {W : Type} (h : Host W) (cfg : config)
    (w w' : W) (z : Z) (t : list event) :
  Go h cfg w = (Returned z, w', t) ->
  (z = 0 -> all_ok t = true /\ Forall (fun e => is_error e = false) t)
  /\ (z = -1 -> In FAILED_line t).
Proof.
  intros H.
  assert (Hmain : (z = 0 /\ Forall quiet_event t) \/ (z = -1 /\ In FAILED_line t)).
  { destruct (version_check h w) as [[[u|ex] w1] tv] eqn:Hv.
    2:{ unfold Go in H. rewrite (bind_raised _ _ _ _ _ _ Hv) in H. discriminate. }
    pose proof (calm_version_check h _ _ _ _ Hv) as Qv.
    destruct (Go_passed_inv h cfg w _ _ _ _ _ _ Hv H) as (ta & Ha & ->).
    unfold after_version_check in Ha.
    apply bind_inv in Ha as [(a & w2 & tc & tr & Hc & H2 & ->)|(ex & _ & [=])].
    apply clean_stage_calm in Hc as [[-> Qc]|[-> Fc]].
    2:{ inversion H2; subst. right. split; [reflexivity|].
        apply in_or_app. right. apply in_or_app. auto. }
    destruct (required_submodules cfg) as [|sm l].
    { inversion H2; subst. left. split; [reflexivity|].
      repeat (apply Forall_app; split); auto. }
    apply bind_inv in H2 as [(b & w3 & ts & tl & Hs & H3 & ->)|(ex & _ & [=])].
    destruct (guarded_calm _ _ _ _ _ _ _ (calm_sync_step h cfg) Hs)
      as [[-> Qs]|[-> Fs]].
    2:{ inversion H3; subst. right. split; [reflexivity|].
        apply in_or_app. right. apply in_or_app. right. apply in_or_app. auto. }
    apply fetch_loop_calm in H3 as [[-> Ql]|[-> Fl]].
    - left. split; [reflexivity|]. repeat (apply Forall_app; split); auto.
    - right. split; [reflexivity|].
      apply in_or_app. right. apply in_or_app. right. apply in_or_app. auto. }
  split.
  - intros ->. destruct Hmain as [[_ Q]|[[=] _]]. split.
    + unfold all_ok. apply forallb_forall. intros e He.
      rewrite Forall_forall in Q. exact (proj1 (Q e He)).
    + eapply Forall_impl; [|exact Q]. intros e [_ He]. exact He.
  - intros ->. destruct Hmain as [[[=] _]|[_ F]]. exact F.
Qed.

Lemma result_matches_the_log_witness :
  In FAILED_line
     (snd (Go Sim.host (Sim.setup true None [Sim.MU])
             {| Sim.git_says := "git version 2.30.0";
                Sim.failing := [("reset --hard", Some "/ws")];
                Sim.crashing := []; Sim.present := []; Sim.dirty := [] |})).
Proof.
  exact (proj2 (result_matches_the_log Sim.host (Sim.setup true None [Sim.MU])
                  {| Sim.git_says := "git version 2.30.0";
                     Sim.failing := [("reset --hard", Some "/ws")];
                     Sim.crashing := []; Sim.present := []; Sim.dirty := [] |}
                  _ (-1) _ eq_refl) eq_refl).
Defined.

(** ** The sync command *)

(** The text of the sync command (lines 165-167). *)
Definition sync_text (cfg : config) : string :=
  "submodule sync -- " ++ PyStr.join " " (map path (required_submodules cfg)).

Lemma sync_stage_trace {W : Type} (h : Host W) (cfg : config) (w w' : W) o ts :
  sync_stage h cfg w = (o, w', ts) ->
  exists resp,
    filter (cmd_at Sync) ts
      = [Cmd Sync "git" (sync_text cfg) (Some (workspace_path cfg)) resp]
    /\ (o = Returned None -> exists out, resp = Exited 0 out).
Proof.
  unfold sync_stage, sync_step, try_except_RuntimeError, bind, RunCmd,
    log_progress, logging_error, emit, ret, sync_text.
  destruct (spawn h w "git"
              ("submodule sync -- " ++ PyStr.join " " (map path (required_submodules cfg)))
              (Some (workspace_path cfg))) as [[rc out|[m|m|c m]] w1];
    cbn [andb negb].
  - destruct (rc =? 0) eqn:Erc; cbn [negb]; intros H; inversion H; subst;
      eexists; (split; [reflexivity|]).
    + intros _. apply Z.eqb_eq in Erc. subst. eauto.
    + discriminate.
  - intros H; inversion H; subst. eexists. split; [reflexivity|discriminate].
  - intros H; inversion H; subst. eexists. split; [reflexivity|discriminate].
  - intros H; inversion H; subst. eexists. split; [reflexivity|discriminate].
Qed.

(** X10.  At most one sync command is issued in a run, and no submodule is
    diffed or updated before it: whenever a diff or an update is issued, the
    sync command naming all the required paths has been issued before it,
    once, and exited with code 0. *)
Theorem sync_precedes_the_loop {W : Type} (h : Host W) (cfg : config)
    (w w' : W) (o : outcome Z) (t : list event) :
  Go h cfg w = (o, w', t) ->
  (length (filter (cmd_at Sync) t) <= 1)%nat
  /\ (forall t1 e t2,
         t = (t1 ++ e :: t2)%list ->
         cmd_at Diff e || cmd_at Fetch e = true ->
         exists out,
           filter (cmd_at Sync) t1
             = [Cmd Sync "git" (sync_text cfg) (Some (workspace_path cfg))
                  (Exited 0 out)]).
Proof.
  intros H.
  set (P := fun e => cmd_at Diff e || cmd_at Fetch e).
  assert (HP : forall S l, Forall (only_sites S) l ->
                 existsb (site_eqb Diff) S = false ->
                 existsb (site_eqb Fetch) S = false ->
                 Forall (fun x => P x = false) l).
  { intros S l Hl H1 H2. eapply Forall_impl; [|exact Hl]. intros x Hx. unfold P.
    now rewrite (only_sites_elsewhere S _ x Hx H1), (only_sites_elsewhere S _ x Hx H2). }
  assert (Hvac : Forall (fun x => P x = false) t ->
                 forall t1 e t2, t = (t1 ++ e :: t2)%list -> P e = true ->
                 exists out,
                   filter (cmd_at Sync) t1
                     = [Cmd Sync "git" (sync_text cfg) (Some (workspace_path cfg))
                          (Exited 0 out)]).
  { intros B t1 e t2 Ht He. exfalso. rewrite Ht in B.
    apply Forall_app in B as [_ B]. inversion B as [|? ? B1 _]. congruence. }
  destruct (version_check h w) as [[[u|ex] w1] tv] eqn:Hv.
  2:{ unfold Go in H. rewrite (bind_raised _ _ _ _ _ _ Hv) in H.
      inversion H as [[H1 H2 H3]]. subst t.
      pose proof (version_check_sites h _ _ _ _ Hv) as Sv. split.
      - rewrite (filter_none _ _ (sites_elsewhere _ Sync _ Sv eq_refl)). simpl. lia.
      - apply Hvac. apply (HP _ _ Sv); reflexivity. }
  pose proof (version_check_sites h _ _ _ _ Hv) as Sv.
  pose proof (sites_elsewhere _ Sync _ Sv eq_refl) as Nv.
  pose proof (HP _ _ Sv eq_refl eq_refl) as Pv.
  destruct (Go_passed_inv h cfg w _ _ _ _ _ _ Hv H) as (ta & Ha & ->).
  apply after_version_check_shape in Ha
    as [(oc & Hcl & Hne)|(w2 & tc & Hcl & [(Hem & -> & _)|[(os & ts & Hs & Hne & ->)|(w3 & ts & tl & Hs & Hl & ->)]])];
    pose proof (clean_stage_sites h cfg _ _ _ _ Hcl) as Sc;
    pose proof (sites_elsewhere _ Sync _ Sc eq_refl) as Nc;
    pose proof (HP _ _ Sc eq_refl eq_refl) as Pc.
  - split.
    + rewrite filter_app, (filter_none _ _ Nv), (filter_none _ _ Nc). simpl. lia.
    + apply Hvac. apply Forall_app. auto.
  - split.
    + rewrite filter_app, (filter_none _ _ Nv), (filter_none _ _ Nc). simpl. lia.
    + apply Hvac. apply Forall_app. auto.
  - pose proof (HP _ _ (sync_stage_sites h cfg _ _ _ _ Hs) eq_refl eq_refl) as Ps.
    destruct (sync_stage_trace h cfg _ _ _ _ Hs) as (resp & Es & _). split.
    + rewrite !filter_app, (filter_none _ _ Nv), (filter_none _ _ Nc), Es. simpl. lia.
    + apply Hvac. repeat (apply Forall_app; split); auto.
  - pose proof (HP _ _ (sync_stage_sites h cfg _ _ _ _ Hs) eq_refl eq_refl) as Ps.
    destruct (sync_stage_trace h cfg _ _ _ _ Hs) as (resp & Es & Hok).
    destruct (Hok eq_refl) as (out & ->).
    pose proof (sites_elsewhere _ Sync _ (fetch_loop_sites h cfg _ _ _ _ _ _ Hl) eq_refl)
      as Nl.
    split.
    + rewrite !filter_app, (filter_none _ _ Nv), (filter_none _ _ Nc), Es,
        (filter_none _ _ Nl). simpl. lia.
    + intros t1 e t2 Ht He.
      assert (Hsplit : ((tv ++ tc ++ ts) ++ tl = t1 ++ e :: t2)%list).
      { rewrite <- Ht. now rewrite <- !app_assoc. }
      apply (split_after_prefix P) in Hsplit as (r1 & -> & Hr); auto.
      2:{ repeat (apply Forall_app; split); auto. }
      rewrite Hr in Nl. apply Forall_app in Nl as [Nr _].
      exists out.
      rewrite !filter_app, (filter_none _ _ Nv), (filter_none _ _ Nc), Es,
        (filter_none _ _ Nr). reflexivity.
Qed.

Lemma sync_precedes_the_loop_witness :
  (length (filter (cmd_at Sync)
             (snd (Go Sim.host (Sim.setup false None [Sim.MU; Sim.TEST])
                     (Sim.quiet "git version 2.30.0")))) <= 1)%nat.
Proof.
  exact (proj1 (sync_precedes_the_loop Sim.host (Sim.setup false None [Sim.MU; Sim.TEST])
                  (Sim.quiet "git version 2.30.0") _ _ _ eq_refl)).
Defined.

(** ** One diff and one update for an entry at most *)

Lemma turn_counts {W : Type} (h : Host W) (cfg : config) sm r (w w' : W) o t :
  turn_of h cfg sm r w = (o, w', t) ->
  (length (filter (cmd_at Fetch) t) <= 1)%nat
  /\ (length (filter (cmd_at Diff) t) <= 1)%nat
  /\ (turns_begun t <= 1)%nat.
Proof.
  unfold turn_of, fetch_turn, handled, turns_begun.
  destruct (path_exists h w (resolve h cfg sm) && negb (force_it cfg)).
  - destruct (spawn h w "git" ("diff " ++ path sm) (Some (workspace_path cfg)))
      as [[rc out|e] w1].
    + destruct (rc =? 0).
      * destruct (String.eqb (PyStr.strip out) "").
        -- destruct (spawn h w1 "git" (cmd_string cfg sm) (Some (workspace_path cfg)))
             as [[rc2 out2|e2] w2].
           ++ destruct (rc2 =? 0); intros H; inversion H; subst; cbn; lia.
           ++ destruct e2; intros H; inversion H; subst; cbn; lia.
        -- intros H; inversion H; subst; cbn; lia.
      * intros H; inversion H; subst; cbn; lia.
    + destruct e; intros H; inversion H; subst; cbn; lia.
  - destruct (spawn h w "git" (cmd_string cfg sm) (Some (workspace_path cfg)))
      as [[rc2 out2|e2] w2].
    + destruct (rc2 =? 0); intros H; inversion H; subst; cbn; lia.
    + destruct e2; intros H; inversion H; subst; cbn; lia.
Qed.

Lemma fetch_loop_counts {W : Type} (h : Host W) (cfg : config) l :
  forall r (w w' : W) o t,
    fetch_loop h cfg l r w = (o, w', t) ->
    (length (filter (cmd_at Fetch) t) <= length l)%nat
    /\ (length (filter (cmd_at Diff) t) <= length l)%nat
    /\ (turns_begun t <= length l)%nat.
Proof.
  induction l as [|sm l IH]; simpl; intros r w w' o t H.
  - inversion H; subst. cbn. lia.
  - apply bind_inv in H as [(a & w1 & t1 & t2 & H1 & H2 & ->)|(e & H1 & ->)];
      rewrite iteration_run in H1; apply turn_counts in H1 as (F1 & D1 & C1).
    + apply IH in H2 as (F2 & D2 & C2).
      rewrite turns_begun_app, !filter_app, !length_app. lia.
    + lia.
Qed.

(** X11.  In every run, however it ends, the loop begins at most one turn per
    required submodule and issues at most one diff and at most one update per
    required submodule. *)
Theorem each_entry_at_most_once {W : Type} (h : Host W) (cfg : config)
    (w w' : W) (o : outcome Z) (t : list event) :
  Go h cfg w = (o, w', t) ->
  (length (filter (cmd_at Fetch) t) <= length (required_submodules cfg))%nat
  /\ (length (filter (cmd_at Diff) t) <= length (required_submodules cfg))%nat
  /\ (turns_begun t <= length (required_submodules cfg))%nat.
Proof.
  intros H.
  assert (Hz : forall l, Forall before_loop l ->
                 length (filter (cmd_at Fetch) l) = 0%nat
                 /\ length (filter (cmd_at Diff) l) = 0%nat
                 /\ turns_begun l = 0%nat).
  { intros l B. unfold turns_begun.
    rewrite !filter_none; [auto| | |];
      (eapply Forall_impl; [|exact B]); intros e (H1 & H2 & H3); assumption. }
  destruct (version_check h w) as [[[u|ex] w1] tv] eqn:Hv.
  2:{ unfold Go in H. rewrite (bind_raised _ _ _ _ _ _ Hv) in H.
      inversion H as [[H1 H2 H3]]. rewrite <- H3.
      assert (B : Forall before_loop tv).
      { eapply Forall_impl; [|exact (version_check_before_loop h _ _ _ _ Hv)].
        simpl. tauto. }
      destruct (Hz _ B) as (-> & -> & ->). repeat split; apply Nat.le_0_l. }
  assert (Bv : Forall before_loop tv).
  { eapply Forall_impl; [|exact (version_check_before_loop h _ _ _ _ Hv)].
    simpl. tauto. }
  destruct (Go_passed_inv h cfg w _ _ _ _ _ _ Hv H) as (ta & Ha & ->).
  apply after_version_check_shape in Ha
    as [(oc & Hcl & Hne)|(w2 & tc & Hcl & [(Hem & -> & _)|[(os & ts & Hs & Hne & ->)|(w3 & ts & tl & Hs & Hl & ->)]])];
    pose proof (clean_stage_before_loop h cfg _ _ _ _ Hcl) as Bc.
  - destruct (Hz (tv ++ ta)%list) as (-> & -> & ->); [apply Forall_app; auto|repeat split; apply Nat.le_0_l].
  - destruct (Hz (tv ++ tc)%list) as (-> & -> & ->); [apply Forall_app; auto|repeat split; apply Nat.le_0_l].
  - assert (Bs : Forall before_loop ts).
    { eapply Forall_impl; [|exact (sync_stage_before_loop h cfg _ _ _ _ Hs)].
      simpl. tauto. }
    destruct (Hz (tv ++ tc ++ ts)%list) as (-> & -> & ->);
      [repeat (apply Forall_app; split); auto|repeat split; apply Nat.le_0_l].
  - assert (Bs : Forall before_loop ts).
    { eapply Forall_impl; [|exact (sync_stage_before_loop h cfg _ _ _ _ Hs)].
      simpl. tauto. }
    destruct (Hz (tv ++ tc ++ ts)%list) as (F0 & D0 & C0);
      [repeat (apply Forall_app; split); auto|].
    apply fetch_loop_counts in Hl as (F1 & D1 & C1).
    replace (tv ++ tc ++ ts ++ tl)%list with ((tv ++ tc ++ ts) ++ tl)%list
      by (now rewrite <- !app_assoc).
    rewrite turns_begun_app, C0.
    rewrite (filter_app (cmd_at Fetch) (tv ++ tc ++ ts) tl),
      (filter_app (cmd_at Diff) (tv ++ tc ++ ts) tl), !length_app, F0, D0.
    simpl. auto.
Qed.

Lemma each_entry_at_most_once_witness :
  (length (filter (cmd_at Fetch)
             (snd (Go Sim.host (Sim.setup true None [Sim.MU; Sim.TEST])
                     (Sim.quiet "git version 2.30.0")))) <= 2)%nat.
Proof.
  exact (proj1 (each_entry_at_most_once Sim.host (Sim.setup true None [Sim.MU; Sim.TEST])
                  (Sim.quiet "git version 2.30.0") _ _ _ eq_refl)).
Defined.

(** ** Building a submodule record *)


